(** * Nutrition-survey preparation stage: a shallow embedding of
      [data_preparation.py] and of the food-group catalogs of the scripts
      that consume its output.

    Cells of the table are Python strings or IEEE-754 doubles; the missing
    marker is the double NaN, as in pandas.  Doubles are Rocq's primitive
    floats, so every comparison below is the comparison Python performs.
    A Python [str] is written as the string of the bytes of its UTF-8
    encoding, so that equality and dict lookup are those of Python.
    Trimming and title-casing are library functions ([str_strip],
    [str_title]); what they do on ASCII text is written out
    ([ascii_strip], [ascii_title]), what they do on other text depends on
    the Unicode tables and is left to the library. *)

From Stdlib Require Import ZArith String Ascii List Floats Lia Permutation.
From stdpp Require Import gmap strings list fin_maps.

Set Warnings "-inexact-float".
Local Open Scope string_scope.

(** ** Values, exceptions and the effect monad *)

Inductive cell : Type :=
| Str (s : string)
| Num (x : float).

(** [np.nan], the missing marker. *)
Definition NaN : cell := Num nan.

(** [pd.isna] / [pd.notna] on a scalar. *)
Definition isna (c : cell) : bool :=
  match c with
  | Num x => is_nan x
  | Str _ => false
  end.

Definition notna (c : cell) : bool := negb (isna c).

(** A Python integer stored in a float64 column (small and non-negative
    wherever it is used here: the codes 1..6 and the scores). *)
Definition of_int (z : Z) : float := PrimFloat.of_uint63 (Uint63.of_Z z).

Inductive exn : Type :=
| KeyError (key : string)
| TypeError.

Inductive result (A : Type) : Type :=
| Ok (a : A)
| Raise (e : exn).

Arguments Ok {A} a.
Arguments Raise {A} e.

(** Computations that read and write a state [S] and may raise; the state
    reached when an exception is raised is kept, so that what had been
    written before an abort stays visible. *)
Definition M (S A : Type) : Type := S -> result A * S.

Definition ret {S A} (a : A) : M S A := fun s => (Ok a, s).

Definition raise {S A} (e : exn) : M S A := fun s => (Raise e, s).

Definition bind {S A B} (m : M S A) (k : A -> M S B) : M S B :=
  fun s =>
    match m s with
    | (Ok a, s') => k a s'
    | (Raise e, s') => (Raise e, s')
    end.

Notation "'do' x <- m ; k" := (bind m (fun x => k))
  (at level 10, x name, m at level 100, k at level 200).
Notation "'run' m ; k" := (bind m (fun _ => k))
  (at level 10, m at level 100, k at level 200).

(** [try: body except: pass] *)
Definition try_pass {S} (body : M S unit) : M S unit :=
  fun s =>
    match body s with
    | (Ok _, s') => (Ok tt, s')
    | (Raise _, s') => (Ok tt, s')
    end.

(** [for x in xs: body x] *)
Fixpoint for_each {S A} (xs : list A) (body : A -> M S unit) : M S unit :=
  match xs with
  | [] => ret tt
  | x :: rest => run body x; for_each rest body
  end.

(** [[f x for x in xs]] where [f] may raise. *)
Fixpoint map_result {A B} (f : A -> result B) (xs : list A) : result (list B) :=
  match xs with
  | [] => Ok []
  | x :: rest =>
      match f x with
      | Raise e => Raise e
      | Ok y =>
          match map_result f rest with
          | Raise e => Raise e
          | Ok ys => Ok (y :: ys)
          end
      end
  end.

(** ** BMI categories (section 3 of the script)

    The function is applied to the elements of the float64 column
    [BMI_final]; [pd.isna] on a double is [is_nan]. *)

Definition categorize_bmi (bmi : float) : string :=
  if is_nan bmi then "Unknown"
  else if (bmi <? 18.5)%float then "Underweight"
  else if (bmi <? 25)%float then "Normal"
  else if (bmi <? 30)%float then "Overweight"
  else "Obese".

(** ** Trimming and title-casing of ASCII text

    What [str.strip] and [str.title] compute on a text made of ASCII
    characters only.  On other text Python consults the Unicode tables
    (more white space, more cased letters, case mappings to several
    characters), which these functions do not describe. *)

Definition is_ascii_space (c : ascii) : bool :=
  let n := nat_of_ascii c in
  ((9 <=? n) && (n <=? 13) || (28 <=? n) && (n <=? 32))%nat.

Definition is_ascii_upper (c : ascii) : bool :=
  let n := nat_of_ascii c in ((65 <=? n) && (n <=? 90))%nat.

Definition is_ascii_lower (c : ascii) : bool :=
  let n := nat_of_ascii c in ((97 <=? n) && (n <=? 122))%nat.

Definition is_ascii_cased (c : ascii) : bool := is_ascii_upper c || is_ascii_lower c.

Definition ascii_upper (c : ascii) : ascii :=
  if is_ascii_lower c then ascii_of_nat (nat_of_ascii c - 32) else c.

Definition ascii_lower (c : ascii) : ascii :=
  if is_ascii_upper c then ascii_of_nat (nat_of_ascii c + 32) else c.

Fixpoint ascii_lstrip (s : string) : string :=
  match s with
  | EmptyString => EmptyString
  | String c rest => if is_ascii_space c then ascii_lstrip rest else s
  end.

Fixpoint ascii_rstrip (s : string) : string :=
  match s with
  | EmptyString => EmptyString
  | String c rest =>
      match ascii_rstrip rest with
      | EmptyString => if is_ascii_space c then EmptyString else String c EmptyString
      | kept => String c kept
      end
  end.

Definition ascii_strip (s : string) : string := ascii_rstrip (ascii_lstrip s).

(** The loop of [str.title]: a character is upper-cased when the one
    before it is not cased, and lower-cased otherwise. *)
Fixpoint ascii_title_from (previous_is_cased : bool) (s : string) : string :=
  match s with
  | EmptyString => EmptyString
  | String c rest =>
      String (if previous_is_cased then ascii_lower c else ascii_upper c)
             (ascii_title_from (is_ascii_cased c) rest)
  end.

Definition ascii_title (s : string) : string := ascii_title_from false s.

(** [str.lower] on ASCII text, used only to say when two spellings differ
    by the case of their ASCII letters alone. *)
Fixpoint lowercase (s : string) : string :=
  match s with
  | EmptyString => EmptyString
  | String c rest => String (ascii_lower c) (lowercase rest)
  end.

(** A text made of ASCII characters only. *)
Fixpoint is_ascii (s : string) : bool :=
  match s with
  | EmptyString => true
  | String c rest => (nat_of_ascii c <? 128)%nat && is_ascii rest
  end.

(** A text that begins with a lower-case ASCII letter. *)
Definition starts_lower (label : string) : bool :=
  match label with
  | EmptyString => false
  | String c _ => is_ascii_lower c
  end.

(** ** The library functions the script relies on

    [str_to_float] is the numeric parser behind
    [pd.to_numeric(..., errors='coerce')] on a string, [None] standing for
    a string it cannot parse; [float_to_str] is what [astype(str)] prints
    for a number that is not NaN; [str_strip] and [str_title] are
    [Series.str.strip()] and [Series.str.title()] on one cell, that is
    Python's [str.strip] and [str.title].  They belong to the library,
    not to the repository, and stay abstract.  Three facts about the two
    text functions are recorded with them: on ASCII text they are
    [ascii_strip] and [ascii_title], and a title-cased text never begins
    with a lower-case ASCII letter, since no character of Unicode has one
    at the head of its title-case mapping. *)
Class Pandas : Type := {
  str_to_float : string -> option float;
  float_to_str : float -> string;
  str_strip : string -> string;
  str_title : string -> string;
  str_strip_ascii : forall s, is_ascii s = true -> str_strip s = ascii_strip s;
  str_title_ascii : forall s, is_ascii s = true -> str_title s = ascii_title s;
  str_title_initial : forall s, starts_lower (str_title s) = false
}.

(** ** Text standardisation (step 1.5 of the script) *)

Definition text_columns : list string :=
  ["Do you skip meals"; "Prefer snacks over food? (Yes/No)"; "Residence";
   "Living With"; "Marital Status of Parents"; "Religion"; "Ethnic Group";
   "Which meal skipped"; "Reason for skipping meals"; "Source of food";
   "Reason for snack preference"].

(** [astype(str)] on one cell: NaN prints as [nan]. *)
Definition astype_str `{Pandas} (c : cell) : string :=
  match c with
  | Str s => s
  | Num x => if is_nan x then "nan" else float_to_str x
  end.

(** [Series.replace(old, new)] on one cell. *)
Definition replace (old : string) (new : cell) (c : cell) : cell :=
  match c with
  | Str s => if String.eqb s old then new else c
  | Num _ => c
  end.

(** What the two assignments of the loop body do to one cell. *)
Definition standardize `{Pandas} (c : cell) : cell :=
  replace "Nan" NaN (Str (str_title (str_strip (astype_str c)))).

(** ** Frequency codes and the food-group catalog (step 2) *)

Definition frequency_mapping : gmap string Z :=
  list_to_map
    [("daily", 6); ("Daily", 6); ("DAILY", 6);
     ("4-6x", 5); ("4-6X", 5);
     ("2-3x", 4); ("2-3X", 4);
     ("1x", 3); ("1X", 3);
     ("occ", 2); ("Occ", 2); ("OCC", 2);
     ("occasionally", 2); ("Occasionally", 2);
     ("0x", 1); ("0X", 1);
     ("never", 1); ("Never", 1); ("NEVER", 1)]%Z.

(** A Python dict literal, in insertion order. *)
Definition food_groups : list (string * list string) :=
  [
   ("Dairy", ["Milk "; "Yoghurt"; "Ice cream"; "Dairy_Other"]);
   ("Tubers", ["Yam"; "Cocoyam"; "Water yam"; "Sweet Potatoe";
      "Irish Potatoes (Daily/1wk/2-3x/4-6x/Occasional/Never)"; "Tubers_Other"]);
   ("Legumes", ["Beans"; "Pigeon pea"; "Bambara nut"; "Soybean products";
      "Breadfruit (Daily/1wk/2-3x/4-6x/Occasional/Never)"; "Groundnut";
      "African yam bean"; "Legumes_Other"]);
   ("Cereals", ["Rice"; "Maize"; "Millet"; "Guinea corn"; "Wheat"; "Oats";
      "Cereals_Other"]);
   ("Meats", ["Beef"; "Goat meat"; "Chicken"; "Turkey"; "Egg"; "Fish";
      "Pork meat"; "Snail"; "Kpomo"]);
   ("Vegetables", ["Tomatoes"; "Ugu"; "Scent leaf"; "Water leaf"; "Green";
      "Bitter leaf "; "Carrot"; "Cabbage"; "Cucumber"; "Garden"; "Okro";
      "Pumpkin"; "Veg_Other"]);
   ("Fruits", ["Apple"; "Orange"; "Grapes"; "Banana"; "Soursop"; "Avocado";
      "African pear"; "Forest pear"; "Watermelon"; "Pineapple"; "Agbalumo";
      "Pawpaw"; "Mango"; "Guava"; "Cashew"; "Fruit_Other"]);
   ("Spices", ["Garlic "; "Rosemary"; "Thyme"; "Turmeric"; "Nutmeg";
      "Okpei"; "Ogiri"; "Spice_Other"]);
   ("Drinks", ["Water"; "Soft drinks"; "Alcoholic beverages"; "Wines";
      "Palm wine"; "Beer"; "Drink_Other"]);
   ("Snacks", ["Biscuits "; "Chin-chin"; "Buns"; "Doughnut"; "Peanut";
      "Plantain"; "Chocolate"; "Eggrolls"; "Snack_Other"])
  ].

Module advanced_analysis.

Definition food_groups : list (string * list string) :=
  [
    ("Dairy", ["Milk "; "Yoghurt"; "Ice cream"; "Dairy_Other"]);
    ("Tubers", ["Yam"; "Cocoyam"; "Water yam"; "Sweet Potatoe";
       "Irish Potatoes (Daily/1wk/2-3x/4-6x/Occasional/Never)"; "Tubers_Other"]);
    ("Legumes", ["Beans"; "Pigeon pea"; "Bambara nut"; "Soybean products";
       "Breadfruit (Daily/1wk/2-3x/4-6x/Occasional/Never)"; "Groundnut";
       "African yam bean"; "Legumes_Other"]);
    ("Cereals", ["Rice"; "Maize"; "Millet"; "Guinea corn"; "Wheat"; "Oats";
       "Cereals_Other"]);
    ("Meats", ["Beef"; "Goat meat"; "Chicken"; "Turkey"; "Egg"; "Fish";
       "Pork meat"; "Snail"; "Kpomo"]);
    ("Vegetables", ["Tomatoes"; "Ugu"; "Scent leaf"; "Water leaf"; "Green";
       "Bitter leaf "; "Carrot"; "Cabbage"; "Cucumber"; "Garden"; "Okro";
       "Pumpkin"; "Veg_Other"]);
    ("Fruits", ["Apple"; "Orange"; "Grapes"; "Banana"; "Soursop"; "Avocado";
       "African pear"; "Forest pear"; "Watermelon"; "Pineapple"; "Agbalumo";
       "Pawpaw"; "Mango"; "Guava"; "Cashew"; "Fruit_Other"]);
    ("Snacks", ["Biscuits "; "Chin-chin"; "Buns"; "Doughnut"; "Peanut";
       "Plantain"; "Chocolate"; "Eggrolls"; "Snack_Other"])
  ].

End advanced_analysis.

Module analysis_dietary_patterns.

Definition food_groups : list (string * list string) :=
  [
    ("Dairy", ["Milk "; "Yoghurt"; "Ice cream"; "Dairy_Other"]);
    ("Tubers", ["Yam"; "Cocoyam"; "Water yam"; "Sweet Potatoe";
       "Irish Potatoes (Daily/1wk/2-3x/4-6x/Occasional/Never)"; "Tubers_Other"]);
    ("Legumes", ["Beans"; "Pigeon pea"; "Bambara nut"; "Soybean products";
       "Breadfruit (Daily/1wk/2-3x/4-6x/Occasional/Never)"; "Groundnut";
       "African yam bean"; "Legumes_Other"]);
    ("Cereals", ["Rice"; "Maize"; "Millet"; "Guinea corn"; "Wheat"; "Oats";
       "Cereals_Other"]);
    ("Meats", ["Beef"; "Goat meat"; "Chicken"; "Turkey"; "Egg"; "Fish";
       "Pork meat"; "Snail"; "Kpomo"]);
    ("Vegetables", ["Tomatoes"; "Ugu"; "Scent leaf"; "Water leaf"; "Green";
       "Bitter leaf "; "Carrot"; "Cabbage"; "Cucumber"; "Garden"; "Okro";
       "Pumpkin"; "Veg_Other"]);
    ("Fruits", ["Apple"; "Orange"; "Grapes"; "Banana"; "Soursop"; "Avocado";
       "African pear"; "Forest pear"; "Watermelon"; "Pineapple"; "Agbalumo";
       "Pawpaw"; "Mango"; "Guava"; "Cashew"; "Fruit_Other"]);
    ("Spices", ["Garlic "; "Rosemary"; "Thyme"; "Turmeric"; "Nutmeg";
       "Okpei"; "Ogiri"; "Spice_Other"]);
    ("Drinks", ["Water"; "Soft drinks"; "Alcoholic beverages"; "Wines";
       "Palm wine"; "Beer"; "Drink_Other"]);
    ("Snacks", ["Biscuits "; "Chin-chin"; "Buns"; "Doughnut"; "Peanut";
       "Plantain"; "Chocolate"; "Eggrolls"; "Snack_Other"])
  ].

End analysis_dietary_patterns.

(** [all_food_items]: the member lists of the catalog, flattened. *)
Definition all_food_items : list string :=
  flat_map (fun '(group, items) => items) food_groups.

(** ** The table being prepared and the files written so far *)

Record dataframe : Type := mk_dataframe {
  nrows : nat;
  columns : gmap string (list cell)
}.

Inductive file : Type :=
| CsvFile (name : string) (table : dataframe)
| TextFile (name : string).

Definition file_name (f : file) : string :=
  match f with
  | CsvFile name _ => name
  | TextFile name => name
  end.

Record world : Type := mk_world {
  data : dataframe;
  files : list file
}.

(** [col in data.columns] *)
Definition has_column (col : string) : M world bool :=
  fun w => (Ok (bool_decide (is_Some (columns (data w) !! col))), w).

(** [data[col]] read *)
Definition getitem (col : string) : M world (list cell) :=
  fun w =>
    match columns (data w) !! col with
    | Some series => (Ok series, w)
    | None => (Raise (KeyError col), w)
    end.

(** [data[col] = series] *)
Definition setitem (col : string) (series : list cell) : M world unit :=
  fun w =>
    (Ok tt,
     mk_world (mk_dataframe (nrows (data w)) (<[col := series]> (columns (data w))))
              (files w)).

Definition write_file (f : file) : M world unit :=
  fun w => (Ok tt, mk_world (data w) (files w ++ [f])).

(** [data.to_csv(name, index=False)] *)
Definition to_csv (name : string) : M world unit :=
  fun w => write_file (CsvFile name (data w)) w.

(** The loop of step 1.5. *)
Definition standardize_text `{Pandas} : M world unit :=
  for_each text_columns (fun col =>
    do present <- has_column col;
    if present then
      do series <- getitem col;
      setitem col (map standardize series)
    else ret tt).

(** [f"{col}_coded"] *)
Definition coded_name (item : string) : string := item ++ "_coded".

(** [Series.map(mapping)] on one cell: the code of a key of the dict, NaN
    for anything else. *)
Definition map_cell (mapping : gmap string Z) (c : cell) : cell :=
  match c with
  | Str s =>
      match mapping !! s with
      | Some code => Num (of_int code)
      | None => NaN
      end
  | Num _ => NaN
  end.

(** [pd.to_numeric(..., errors='coerce')] on one cell; the result is a
    float64 Series. *)
Definition to_numeric_cell `{Pandas} (c : cell) : float :=
  match c with
  | Num x => x
  | Str s =>
      match str_to_float s with
      | Some x => x
      | None => nan
      end
  end.

Definition to_numeric `{Pandas} (series : list cell) : list float :=
  map to_numeric_cell series.

(** [Series.fillna(other)]: the cells that are NaN take the value of
    [other] at the same position. *)
Fixpoint fillna (series : list cell) (other : list float) : list cell :=
  match series, other with
  | c :: series', o :: other' =>
      (if isna c then Num o else c) :: fillna series' other'
  | _, _ => series
  end.

(** The body of the coding loop for one food item. *)
Definition code_item `{Pandas} (col : string) : M world unit :=
  do present <- has_column col;
  if present then
    let coded_col := coded_name col in
    do raw <- getitem col;
    run setitem coded_col (map (map_cell frequency_mapping) raw);
    do coded <- getitem coded_col;
    if existsb isna coded then
      try_pass (
        do coded <- getitem coded_col;
        do raw <- getitem col;
        setitem coded_col (fillna coded (to_numeric raw)))
    else ret tt
  else ret tt.

Definition code_frequencies `{Pandas} : M world unit :=
  for_each all_food_items code_item.

(** What the loop body leaves in the coded column, as a function of the
    raw column. *)
Definition code_column `{Pandas} (raw : list cell) : list cell :=
  let coded := map (map_cell frequency_mapping) raw in
  if existsb isna coded then fillna coded (to_numeric raw) else coded.

(** The coded value of one raw cell. *)
Definition code_cell `{Pandas} (c : cell) : cell :=
  let coded := map_cell frequency_mapping c in
  if isna coded then Num (to_numeric_cell c) else coded.

(** ** Dietary diversity score (step 4) *)

(** One row of the table, as [DataFrame.apply(..., axis=1)] passes it: a
    Series indexed by column name. *)
Abbreviation row := (gmap string cell).

(** [coded_col in row.index] *)
Definition in_index (col : string) : M row bool :=
  fun r => (Ok (bool_decide (is_Some (r !! col))), r).

(** [row[coded_col]] *)
Definition row_get (col : string) : M row cell :=
  fun r =>
    match r !! col with
    | Some c => (Ok c, r)
    | None => (Raise (KeyError col), r)
    end.

(** [value >= 3]; Python refuses to order a string and a number. *)
Definition ge_3 (c : cell) : M row bool :=
  match c with
  | Num x => ret (3 <=? x)%float
  | Str _ => raise TypeError
  end.

(** The inner loop, which leaves at the first item that counts. *)
Fixpoint any_item_consumed (items : list string) : M row bool :=
  match items with
  | [] => ret false
  | item :: rest =>
      let coded_col := coded_name item in
      do present <- in_index coded_col;
      if present then
        do value <- row_get coded_col;
        if notna value then
          do value' <- row_get coded_col;
          do enough <- ge_3 value';
          if enough then ret true else any_item_consumed rest
        else any_item_consumed rest
      else any_item_consumed rest
  end.

(** The outer loop, carrying [score]. *)
Fixpoint count_groups (groups : list (string * list string)) (score : Z)
  : M row Z :=
  match groups with
  | [] => ret score
  | (group, items) :: rest =>
      do group_consumed <- any_item_consumed items;
      count_groups rest (if group_consumed then score + 1 else score)%Z
  end.

Definition calculate_dds_on (food_groups : list (string * list string))
  : M row Z :=
  count_groups food_groups 0%Z.

Definition calculate_dds (r : row) (food_groups : list (string * list string))
  : result Z :=
  fst (calculate_dds_on food_groups r).


(** ** BMI, scoring, export and summary (steps 3 to 5) *)

(** Step 3.  [BMI_final] is a float64 column and [categorize_bmi] is
    applied to its elements. *)
Definition compute_bmi `{Pandas} : M world unit :=
  do bmi <- getitem "BMI";
  let bmi_final := to_numeric bmi in
  run setitem "BMI_final" (map Num bmi_final);
  setitem "BMI_category" (map (fun x => Str (categorize_bmi x)) bmi_final).

Definition row_at (df : dataframe) (i : nat) : row :=
  omap (fun series : list cell => series !! i) (columns df).

(** [data.apply(lambda row: f(row), axis=1)] *)
Definition apply_rows (f : row -> result Z) (df : dataframe) : result (list Z) :=
  map_result (fun i => f (row_at df i)) (seq 0 (nrows df)).

Definition compute_dds : M world unit :=
  fun w =>
    match apply_rows (fun r => calculate_dds r food_groups) (data w) with
    | Ok scores => setitem "DDS" (map (fun z => Num (of_int z)) scores) w
    | Raise e => (Raise e, w)
    end.

(** Step 5 after the export: the columns the summary dict reads, in the
    order its entries are evaluated ([DDS] is read for each of its last
    two entries; once is kept), then the summary file. *)
Definition write_summary : M world unit :=
  do urban <- getitem "Residence";
  do rural <- getitem "Residence";
  do has_age <- has_column "Age Group ";
  do age <- (if has_age then getitem "Age Group " else ret []);
  do categories <- getitem "BMI_category";
  do scores <- getitem "DDS";
  write_file (TextFile "data_preparation_summary.txt").

Definition main `{Pandas} : M world unit :=
  run standardize_text;
  run code_frequencies;
  run compute_bmi;
  run compute_dds;
  run to_csv "cleaned_data.csv";
  write_summary.

(** The script run on the table read from the spreadsheet, with nothing
    written yet.  The [print] calls between the steps read only columns
    the step before them has just written, and are left out. *)
Definition run_preparation `{Pandas} (df : dataframe) : result unit * world :=
  main (mk_world df []).

(** The [BMI_category] cell that step 3 derives from one cell of the raw
    [BMI] column: coercion to a number, then [categorize_bmi]. *)
Definition bmi_category_of `{Pandas} (c : cell) : string :=
  categorize_bmi (to_numeric_cell c).

Definition bmi_categories : list string :=
  ["Underweight"; "Normal"; "Overweight"; "Obese"; "Unknown"].

(** ** The score as the specification words it

    An item counts when its coded cell is present and at least 3; a group
    is consumed when one of its items counts; the score is the number of
    consumed groups. *)

Definition item_consumed (r : row) (item : string) : bool :=
  match r !! coded_name item with
  | Some (Num x) => negb (is_nan x) && (3 <=? x)%float
  | _ => false
  end.

Definition group_consumed (r : row) (items : list string) : bool :=
  existsb (item_consumed r) items.

Definition dds_count (r : row) (groups : list (string * list string)) : Z :=
  Z.of_nat (length (List.filter (fun g => group_consumed r (snd g)) groups)).

(** The coded cell of an item is absent or missing. *)
Definition item_missing (r : row) (item : string) : bool :=
  match r !! coded_name item with
  | Some c => isna c
  | None => true
  end.

(** The coded cells of a row hold numbers, as the columns written by the
    coding loop do. *)
Definition numeric_item (r : row) (item : string) : bool :=
  match r !! coded_name item with
  | Some (Str _) => false
  | _ => true
  end.

Definition numeric_codes (r : row) (groups : list (string * list string)) : bool :=
  forallb (fun g => forallb (numeric_item r) (snd g)) groups.

(** Two catalogs that list the same groups in another order, each group
    listing its items in another order. *)
Definition same_group (g g' : string * list string) : Prop :=
  fst g = fst g' /\ Permutation (snd g) (snd g').

Definition catalog_reordered (groups groups' : list (string * list string)) : Prop :=
  exists mid, Permutation groups mid /\ Forall2 same_group mid groups'.

(** Two rows with the same coded cells for the items of a catalog. *)
Definition same_codes (r r' : row) (groups : list (string * list string)) : Prop :=
  Forall (fun g => Forall (fun item => r' !! coded_name item = r !! coded_name item)
                          (snd g)) groups.

(** ** Vocabulary of the statements about the coder *)

(** A cell holds one of the ordinal codes 1 to 6. *)
Definition is_ordinal_code (c : cell) : bool :=
  match c with
  | Num x => existsb (fun k => (x =? of_int k)%float) [1; 2; 3; 4; 5; 6]%Z
  | Str _ => false
  end.

(** A cell is a key of [frequency_mapping]. *)
Definition in_table (c : cell) : bool :=
  match c with
  | Str s => bool_decide (is_Some (frequency_mapping !! s))
  | Num _ => false
  end.

(** The mapping of the specification, on lower-case synonyms:
    Never/0x is 1, Occasional/occ is 2, 1x a week is 3, 2-3x is 4, 4-6x
    is 5, Daily is 6. *)
Definition intended_code (synonym : string) : option Z :=
  if String.eqb synonym "never" || String.eqb synonym "0x" then Some 1%Z
  else if String.eqb synonym "occasionally" || String.eqb synonym "occ" then Some 2%Z
  else if String.eqb synonym "1x" then Some 3%Z
  else if String.eqb synonym "2-3x" then Some 4%Z
  else if String.eqb synonym "4-6x" then Some 5%Z
  else if String.eqb synonym "daily" then Some 6%Z
  else None.

(** The coded column that [code_item] writes for an item. *)
Definition with_coded `{Pandas} (col : string) (raw : list cell) (w : world) : world :=
  mk_world (mk_dataframe (nrows (data w))
                         (<[coded_name col := map code_cell raw]> (columns (data w))))
           (files w).

(** ** A library instance and tables for the closed examples

    [digits_only] reads a string of one to fifteen decimal digits as that
    integer and rejects every other string; it prints nothing useful, and
    no example below asks it to print.  Its text functions run the loops
    of [str.strip] and [str.title] over the characters of the text with
    Python's data for the ASCII characters, for the capital I with dot
    above (U+0130, cased, lower-cased to [i] followed by U+0307), for the
    combining dot above (U+0307, not cased) and for the no-break space
    (U+00A0, white space).  Any other character is taken as neither white
    space nor cased and is left as it is, which is not Python's answer for
    all of them: the examples use no such character. *)

Fixpoint digits_value (s : string) (acc : Z) : option Z :=
  match s with
  | EmptyString => Some acc
  | String c rest =>
      let n := nat_of_ascii c in
      if ((48 <=? n) && (n <=? 57))%nat
      then digits_value rest (10 * acc + Z.of_nat (n - 48))%Z
      else None
  end.

Definition digits_to_float (s : string) : option float :=
  if ((1 <=? String.length s) && (String.length s <=? 15))%nat
  then option_map of_int (digits_value s 0%Z)
  else None.

(** The UTF-8 encodings of U+0130, U+0307 and U+00A0. *)
Definition capital_i_dot : string :=
  String (ascii_of_nat 196) (String (ascii_of_nat 176) EmptyString).

Definition combining_dot : string :=
  String (ascii_of_nat 204) (String (ascii_of_nat 135) EmptyString).

Definition no_break_space : string :=
  String (ascii_of_nat 194) (String (ascii_of_nat 160) EmptyString).

(** A byte that continues a character begun by a byte of 128 or more. *)
Definition continues (lead next : ascii) : bool :=
  ((128 <=? nat_of_ascii lead) &&
   (128 <=? nat_of_ascii next) && (nat_of_ascii next <=? 191))%nat.

(** The characters of a text, each as the bytes of its encoding. *)
Fixpoint characters (s : string) : list string :=
  match s with
  | EmptyString => []
  | String b rest =>
      match characters rest with
      | String b' tail :: chs =>
          if continues b b' then String b (String b' tail) :: chs
          else String b EmptyString :: String b' tail :: chs
      | chs => String b EmptyString :: chs
      end
  end.

(** Python's data for one character: [str.isspace], the property Cased,
    and the title-case and lower-case mappings. *)
Definition char_is_space (ch : string) : bool :=
  match ch with
  | String b EmptyString => is_ascii_space b
  | _ => String.eqb ch no_break_space
  end.

Definition char_is_cased (ch : string) : bool :=
  match ch with
  | String b EmptyString => is_ascii_cased b
  | _ => String.eqb ch capital_i_dot
  end.

Definition char_title (ch : string) : string :=
  match ch with
  | String b EmptyString => String (ascii_upper b) EmptyString
  | _ => ch
  end.

Definition char_lower (ch : string) : string :=
  match ch with
  | String b EmptyString => String (ascii_lower b) EmptyString
  | _ => if String.eqb ch capital_i_dot then "i" ++ combining_dot else ch
  end.

(** The loop of [str.title] over the characters. *)
Fixpoint title_characters (previous_is_cased : bool) (chs : list string) : string :=
  match chs with
  | [] => EmptyString
  | ch :: rest =>
      (if previous_is_cased then char_lower ch else char_title ch) ++
      title_characters (char_is_cased ch) rest
  end.

Definition sample_title (s : string) : string :=
  title_characters false (characters s).

Fixpoint lstrip_characters (chs : list string) : list string :=
  match chs with
  | [] => []
  | ch :: rest => if char_is_space ch then lstrip_characters rest else chs
  end.

Fixpoint rstrip_characters (chs : list string) : list string :=
  match chs with
  | [] => []
  | ch :: rest =>
      match rstrip_characters rest with
      | [] => if char_is_space ch then [] else [ch]
      | kept => ch :: kept
      end
  end.

Definition sample_strip (s : string) : string :=
  String.concat "" (rstrip_characters (lstrip_characters (characters s))).

(** One character per byte: the characters of an ASCII text. *)
Fixpoint bytes (s : string) : list string :=
  match s with
  | EmptyString => []
  | String b rest => String b EmptyString :: bytes rest
  end.

Lemma characters_ascii (s : string) : is_ascii s = true -> characters s = bytes s.
Proof.
  induction s as [|b rest IH]; [reflexivity|].
  cbn [is_ascii characters bytes]. intros [Hb Hrest]%andb_prop.
  rewrite (IH Hrest). destruct rest as [|b' rest']; [reflexivity|].
  cbn [bytes]. unfold continues. apply Nat.ltb_lt in Hb.
  assert (Hlead : (128 <=? nat_of_ascii b)%nat = false) by (apply Nat.leb_gt; lia).
  rewrite Hlead. reflexivity.
Qed.

Lemma concat_bytes (s : string) : String.concat "" (bytes s) = s.
Proof.
  induction s as [|b rest IH]; [reflexivity|]. cbn [bytes].
  destruct rest as [|b' rest']; [reflexivity|].
  cbn [bytes] in *. cbn [String.concat]. cbn [String.concat] in IH.
  rewrite IH. reflexivity.
Qed.

Lemma lstrip_bytes (s : string) : lstrip_characters (bytes s) = bytes (ascii_lstrip s).
Proof.
  induction s as [|b rest IH]; [reflexivity|].
  cbn [bytes lstrip_characters char_is_space ascii_lstrip].
  destruct (is_ascii_space b); [exact IH|reflexivity].
Qed.

Lemma rstrip_bytes (s : string) : rstrip_characters (bytes s) = bytes (ascii_rstrip s).
Proof.
  induction s as [|b rest IH]; [reflexivity|].
  cbn [bytes rstrip_characters char_is_space ascii_rstrip]. rewrite IH.
  destruct (ascii_rstrip rest) as [|c kept]; cbn [bytes];
    [destruct (is_ascii_space b)|]; reflexivity.
Qed.

Lemma title_bytes (previous_is_cased : bool) (s : string) :
  title_characters previous_is_cased (bytes s) = ascii_title_from previous_is_cased s.
Proof.
  revert previous_is_cased. induction s as [|b rest IH]; intros p; [reflexivity|].
  cbn [bytes title_characters char_is_cased ascii_title_from]. rewrite IH.
  destruct p; reflexivity.
Qed.

Lemma sample_strip_ascii (s : string) : is_ascii s = true -> sample_strip s = ascii_strip s.
Proof.
  intros Hs. unfold sample_strip, ascii_strip.
  rewrite (characters_ascii s Hs), lstrip_bytes, rstrip_bytes. apply concat_bytes.
Qed.

Lemma sample_title_ascii (s : string) : is_ascii s = true -> sample_title s = ascii_title s.
Proof.
  intros Hs. unfold sample_title, ascii_title.
  rewrite (characters_ascii s Hs). apply title_bytes.
Qed.

(** The first character of a text is one byte, or begins with a byte of
    128 or more. *)
Lemma characters_head (s : string) :
  match characters s with
  | [] => True
  | ch :: _ =>
      match ch with
      | EmptyString => False
      | String b EmptyString => True
      | String b _ => (128 <= nat_of_ascii b)%nat
      end
  end.
Proof.
  destruct s as [|b rest]; [exact I|]. cbn [characters].
  destruct (characters rest) as [|[|b' tail] chs]; [exact I|exact I|].
  unfold continues. destruct (128 <=? nat_of_ascii b)%nat eqn:Hb; [|exact I].
  cbn [andb].
  destruct ((128 <=? nat_of_ascii b') && (nat_of_ascii b' <=? 191))%nat; [|exact I].
  apply Nat.leb_le, Hb.
Qed.

Lemma upper_not_lower (c : ascii) : is_ascii_lower (ascii_upper c) = false.
Proof. destruct c as [[] [] [] [] [] [] [] []]; reflexivity. Qed.

Lemma sample_title_initial (s : string) : starts_lower (sample_title s) = false.
Proof.
  unfold sample_title. pose proof (characters_head s) as Hhead.
  destruct (characters s) as [|ch chs]; [reflexivity|].
  cbn [title_characters]. destruct ch as [|b [|b2 tail]]; [destruct Hhead| |].
  - cbn [char_title append starts_lower]. apply upper_not_lower.
  - cbn [char_title append starts_lower]. unfold is_ascii_lower.
    apply andb_false_iff. right. apply Nat.leb_gt. lia.
Qed.

#[local] Instance digits_only : Pandas := {|
  str_to_float := digits_to_float;
  float_to_str := fun _ => "?";
  str_strip := sample_strip;
  str_title := sample_title;
  str_strip_ascii := sample_strip_ascii;
  str_title_ascii := sample_title_ascii;
  str_title_initial := sample_title_initial
|}.

(** Rice eaten daily, the other cereals unanswered, nothing else coded. *)
Definition rice_daily : row :=
  list_to_map
    [("Rice_coded", Num 6); ("Maize_coded", NaN); ("Millet_coded", NaN);
     ("Guinea corn_coded", NaN); ("Wheat_coded", NaN); ("Oats_coded", NaN);
     ("Cereals_Other_coded", NaN); ("Residence", Str "Urban")].

(** A catalog listing the groups, and the items of each, backwards. *)
Definition backwards (groups : list (string * list string))
  : list (string * list string) :=
  map (fun g => (fst g, rev (snd g))) (rev groups).

(** A raw food-item column with a listed spelling, a numeric string, a
    number, a word outside the table and an unanswered cell. *)
Definition rice_answers : list cell :=
  [Str "Daily"; Str "3"; Num 3; Str "sometimes"; NaN].

(** ** Vocabulary of the statements about the whole run *)

(** [food_groups.get(name)] on a catalog. *)
Fixpoint dict_get (name : string) (groups : list (string * list string))
  : option (list string) :=
  match groups with
  | [] => None
  | (group, items) :: rest =>
      if String.eqb group name then Some items else dict_get name rest
  end.

Definition is_number (c : cell) : bool :=
  match c with
  | Num _ => true
  | Str _ => false
  end.

(** The table read from the spreadsheet has no column named like a coded
    column of the catalog. *)
Definition no_coded_columns (df : dataframe) : bool :=
  forallb (fun item =>
             match columns df !! coded_name item with
             | None => true
             | Some _ => false
             end) all_food_items.

(** Every coded column of the catalog present in the table holds numbers. *)
Definition coded_numeric (df : dataframe) : Prop :=
  forall item series,
    In item all_food_items ->
    columns df !! coded_name item = Some series ->
    forallb is_number series = true.

(** The names of the files written, in the order they were written. *)
Definition written (w : world) : list string := map file_name (files w).

(** The table held by the CSV file of that name, if it was written. *)
Fixpoint exported (name : string) (fs : list file) : option dataframe :=
  match fs with
  | [] => None
  | CsvFile n table :: rest =>
      if String.eqb n name then Some table else exported name rest
  | TextFile _ :: rest => exported name rest
  end.

(** Two respondents; only rice and beans were asked about. *)
Definition survey_table : dataframe :=
  mk_dataframe 2
    (list_to_map
       [("BMI", [Num 17.9; Str "n/a"]);
        ("Residence", [Str " urban"; Str "RURAL"]);
        ("Rice", [Str "Daily"; Str "3"]);
        ("Beans", [Str "never"; NaN])]).

Definition without (col : string) (df : dataframe) : dataframe :=
  mk_dataframe (nrows df) (delete col (columns df)).

(** The same files, the same number of rows and the same column names. *)
Definition same_shape (w w' : world) : Prop :=
  files w' = files w /\
  nrows (data w') = nrows (data w) /\
  forall k, columns (data w') !! k = None <-> columns (data w) !! k = None.

(** The table after step 3 and after step 4. *)
Definition with_bmi `{Pandas} (bmi : list cell) (w : world) : world :=
  mk_world
    (mk_dataframe (nrows (data w))
       (<["BMI_category" := map (fun x => Str (categorize_bmi x)) (to_numeric bmi)]>
          (<["BMI_final" := map Num (to_numeric bmi)]> (columns (data w)))))
    (files w).

Definition with_dds (w : world) : world :=
  mk_world
    (mk_dataframe (nrows (data w))
       (<["DDS" := map (fun i => Num (of_int (dds_count (row_at (data w) i) food_groups)))
                       (seq 0 (nrows (data w)))]> (columns (data w))))
    (files w).

(** The names the script reads or writes besides the coded columns. *)
Definition reserved_columns : list string :=
  ["BMI"; "BMI_final"; "BMI_category"; "DDS"; "Residence"; "Age Group "].

(** A string that does not begin with white space. *)
Definition starts_clean (s : string) : Prop :=
  match s with
  | EmptyString => True
  | String c _ => is_ascii_space c = false
  end.

(** ** What the summary and the later scripts compute from the table *)

(** [name in names] for a list of column names. *)
Definition listed (name : string) (names : list string) : bool :=
  existsb (String.eqb name) names.

(** [series == label] on one cell; a number or NaN is never equal to a
    string. *)
Definition eq_label (label : string) (c : cell) : bool :=
  match c with
  | Str s => String.eqb s label
  | Num _ => false
  end.

(** [(series == label).sum()] *)
Definition count_equal (label : string) (series : list cell) : Z :=
  Z.of_nat (length (List.filter (eq_label label) series)).

(** The entries [Urban] and [Rural] of the summary dict of step 5. *)
Definition summary_residence : M world (Z * Z) :=
  do urban <- getitem "Residence";
  do rural <- getitem "Residence";
  ret (count_equal "urban" urban, count_equal "rural" rural).

(** [(series == label).astype(int)] on one cell. *)
Definition indicator (label : string) (c : cell) : Z :=
  if eq_label label c then 1%Z else 0%Z.

Module advanced_analysis_regression.

(** [data['Undernutrition']], [data['Residence_coded']] and
    [data['Meal_skipping_coded']] of one row, from its [BMI_category],
    [Residence] and [Do you skip meals] cells. *)
Definition Undernutrition (bmi_category : cell) : Z :=
  indicator "Underweight" bmi_category.

Definition Residence_coded (residence : cell) : Z :=
  indicator "urban" residence.

Definition Meal_skipping_coded (skips : cell) : Z :=
  indicator "Yes" skips.

End advanced_analysis_regression.

Module analysis_dietary_patterns_tests.

(** The star rating of a p-value and the wording beside it, as both the
    chi-square loop and the t-test of the script compute them. *)
Definition significance (p_value : float) : string :=
  if (p_value <? 0.001)%float then "***"
  else if (p_value <? 0.01)%float then "**"
  else if (p_value <? 0.05)%float then "*"
  else "ns".

Definition interpretation (p_value : float) : string :=
  if (p_value <? 0.05)%float then "Significant difference"
  else "No significant difference".

End analysis_dietary_patterns_tests.

(** ** The master script [run_full_analysis.py] *)

Module run_full_analysis.

(** The operating system as the script sees it: which paths exist, and
    what [os.system] answers to a command given the commands issued before
    it, [Raise] standing for a call that raises. *)
Class Shell : Type := {
  path_exists : string -> bool;
  os_system : list string -> string -> result Z
}.

Definition scripts : list (string * string) :=
  [("data_preparation.py", "Data Preparation");
   ("analysis_sociodemographic.py", "Section A: Socio-demographic Analysis");
   ("analysis_anthropometry.py", "Section B: Anthropometric Analysis");
   ("analysis_dietary_patterns.py", "Section C: Dietary Assessment (FFQ & DDS)");
   ("analysis_diet_factors.py", "Section D: Factors Affecting Diet");
   ("analysis_dietary_habits.py", "Section E: Dietary Habits");
   ("advanced_analysis.py",
    "BONUS: Advanced Analysis (Logistic Regression & Clustering)");
   ("generate_report.py", "Report Generation")].

(** [results[key] = value] on a dict kept in insertion order. *)
Fixpoint dict_set (key value : string) (d : list (string * string))
  : list (string * string) :=
  match d with
  | [] => [(key, value)]
  | (k, v) :: rest =>
      if String.eqb k key then (k, value) :: rest
      else (k, v) :: dict_set key value rest
  end.

(** [run_script], the state being the commands issued so far; an
    exception of [os.system] is caught and reported as a failure. *)
Definition run_script `{Shell} (script_name description : string)
  : M (list string) bool :=
  fun issued =>
    let command := "python " ++ script_name in
    match os_system issued command with
    | Ok exit_code => (Ok (exit_code =? 0)%Z, (issued ++ [command])%list)
    | Raise _ => (Ok false, (issued ++ [command])%list)
    end.

(** The loop of [main] over the scripts, carrying [results]. *)
Fixpoint run_each `{Shell} (todo : list (string * string))
    (results : list (string * string))
  : M (list string) (list (string * string)) :=
  match todo with
  | [] => ret results
  | (script_name, description) :: rest =>
      if path_exists script_name then
        do success <- run_script script_name description;
        run_each rest
          (dict_set description (if success then "Success" else "Failed") results)
      else run_each rest (dict_set description "Not Found" results)
  end.

(** [all(status == 'Success' for status in results.values())] *)
Definition all_success (results : list (string * string)) : bool :=
  forallb (fun entry => String.eqb (snd entry) "Success") results.

(** [main]: the dict of results and the flag that chooses the closing
    banner. *)
Definition main `{Shell} : M (list string) (list (string * string) * bool) :=
  do results <- run_each scripts [];
  ret (results, all_success results).

(** The commands the loop issues for a list of scripts, and the statuses
    it records for them, [issued] being the commands issued before. *)
Definition commands `{Shell} (todo : list (string * string)) : list string :=
  map (fun script => "python " ++ fst script)
      (List.filter (fun script => path_exists (fst script)) todo).

Fixpoint statuses `{Shell} (todo : list (string * string)) (issued : list string)
  : list (string * string) :=
  match todo with
  | [] => []
  | (script_name, description) :: rest =>
      if path_exists script_name then
        let command := "python " ++ script_name in
        (description,
         match os_system issued command with
         | Ok exit_code => if (exit_code =? 0)%Z then "Success" else "Failed"
         | Raise _ => "Failed"
         end) :: statuses rest (issued ++ [command])%list
      else (description, "Not Found") :: statuses rest issued
  end.

(** A shell for the closed examples: the report generator is absent, the
    preparation script fails, every other script succeeds. *)
Definition failing_preparation : Shell := {|
  path_exists := fun path => negb (String.eqb path "generate_report.py");
  os_system := fun issued command =>
    Ok (if String.eqb command "python data_preparation.py" then 256 else 0)%Z
|}.

End run_full_analysis.

(** A list of names without repetition. *)
Fixpoint distinct (names : list string) : bool :=
  match names with
  | [] => true
  | name :: rest => negb (listed name rest) && distinct rest
  end.

(** The names of the columns the script adds to the table. *)
Definition is_derived (name : string) : bool :=
  listed name ["BMI_final"; "BMI_category"; "DDS"] ||
  listed name (map coded_name all_food_items).

(** The table that is exported, [bmi] being the raw [BMI] column. *)
Definition prepared_table `{Pandas} (df : dataframe) (bmi : list cell) : dataframe :=
  data (with_dds (with_bmi bmi
          (snd (code_frequencies (snd (standardize_text (mk_world df []))))))).

(** Row [r'] reports every item of the catalog at least as often as row
    [r] does: where [r] has a coded value, [r'] has one that is no less. *)
Definition item_at_least (r r' : row) (item : string) : bool :=
  match r !! coded_name item with
  | Some (Num x) =>
      is_nan x ||
      match r' !! coded_name item with
      | Some (Num y) => (x <=? y)%float
      | _ => false
      end
  | _ => true
  end.

Definition eats_at_least (r r' : row) (groups : list (string * list string)) : bool :=
  forallb (fun g => forallb (item_at_least r r') (snd g)) groups.

(** Rice daily and beans weekly. *)
Definition rice_and_beans : row :=
  <["Beans_coded" := Num 3]> rice_daily.

(** The four numeric categories in increasing order of BMI. *)
Definition bmi_rank (category : string) : Z :=
  if String.eqb category "Underweight" then 0
  else if String.eqb category "Normal" then 1
  else if String.eqb category "Overweight" then 2
  else 3.

(** * Properties *)

(** ** Comparisons of doubles *)

Lemma SFcompare_antisym (a b : spec_float) :
  SFcompare a b = option_map CompOpp (SFcompare b a).
Proof.
  destruct a as [[]|[]| |[] m1 e1], b as [[]|[]| |[] m2 e2];
    simpl; try reflexivity.
  all: rewrite (Z.compare_antisym e1 e2); destruct (e1 ?= e2)%Z;
    simpl; try reflexivity.
  all: rewrite (ZC4 m1 m2).
  all: destruct (Pos.compare_cont Eq m2 m1); reflexivity.
Qed.

Lemma SFcompare_refl (a : spec_float) :
  a <> S754_nan -> SFcompare a a = Some Eq.
Proof.
  destruct a as [[]|[]| |[] m e]; simpl; try congruence; intros _.
  all: rewrite Z.compare_refl, Pcompare_refl; reflexivity.
Qed.

Lemma is_nan_spec (x : float) :
  is_nan x = true <-> Prim2SF x = S754_nan.
Proof.
  unfold is_nan. rewrite FloatAxioms.eqb_spec. unfold SFeqb. split.
  - intros Hx. destruct (Prim2SF x) eqn:E; try reflexivity.
    all: rewrite SFcompare_refl in Hx by discriminate; discriminate.
  - intros ->. reflexivity.
Qed.

Lemma ltb_nan_l (x y : float) : is_nan x = true -> (x <? y)%float = false.
Proof.
  intros Hx%is_nan_spec. rewrite ltb_spec, Hx. reflexivity.
Qed.

Lemma leb_nan_r (x y : float) : is_nan x = true -> (y <=? x)%float = false.
Proof.
  intros Hx%is_nan_spec. rewrite leb_spec, Hx. unfold SFleb.
  destruct (Prim2SF y); reflexivity.
Qed.

Lemma not_nan_spec (x : float) :
  is_nan x = false -> Prim2SF x <> S754_nan.
Proof.
  intros Hx Hn. apply is_nan_spec in Hn. congruence.
Qed.

(** Among numbers, [x < c] fails exactly when [c <= x]. *)
Lemma ltb_negb_leb (x c : float) :
  is_nan x = false -> is_nan c = false ->
  (x <? c)%float = negb (c <=? x)%float.
Proof.
  intros Hx%not_nan_spec Hc%not_nan_spec.
  rewrite ltb_spec, leb_spec. unfold SFltb, SFleb.
  rewrite (SFcompare_antisym (Prim2SF c) (Prim2SF x)).
  destruct (SFcompare (Prim2SF x) (Prim2SF c)) as [[]|] eqn:E; try reflexivity.
  exfalso. destruct (Prim2SF x), (Prim2SF c); simpl in E; congruence.
Qed.

(** ** The BMI categoriser *)

Lemma categorize_bmi_not_nan (x : float) :
  is_nan x = false ->
  categorize_bmi x =
    if (x <? 18.5)%float then "Underweight"
    else if (x <? 25)%float then "Normal"
    else if (x <? 30)%float then "Overweight"
    else "Obese".
Proof. intros Hx. unfold categorize_bmi. rewrite Hx. reflexivity. Qed.

(** [x < lo] entails [x < hi] for two positive doubles of the same
    binade, which is the case of the three thresholds. *)
Lemma SFltb_same_binade (f : spec_float) (lo hi : positive) (e0 : Z) :
  (lo < hi)%positive ->
  SFltb f (S754_finite false lo e0) = true ->
  SFltb f (S754_finite false hi e0) = true.
Proof.
  intros Hlt. unfold SFltb.
  destruct f as [[]|[]| |[] m e]; simpl; try congruence.
  destruct (e ?= e0)%Z; try congruence.
  destruct (Pos.compare_cont Eq m lo) eqn:Em; try discriminate. intros _.
  apply nat_of_P_lt_Lt_compare_morphism in Em.
  rewrite nat_of_P_lt_Lt_compare_complement_morphism; [reflexivity|lia].
Qed.

Lemma ltb_18_5_25 (x : float) :
  (x <? 18.5)%float = true -> (x <? 25)%float = true.
Proof.
  rewrite !ltb_spec.
  replace (Prim2SF 18.5) with (S754_finite false 5207287069147136 (-48))
    by (vm_compute; reflexivity).
  replace (Prim2SF 25) with (S754_finite false 7036874417766400 (-48))
    by (vm_compute; reflexivity).
  apply SFltb_same_binade. reflexivity.
Qed.

Lemma ltb_25_30 (x : float) :
  (x <? 25)%float = true -> (x <? 30)%float = true.
Proof.
  rewrite !ltb_spec.
  replace (Prim2SF 25) with (S754_finite false 7036874417766400 (-48))
    by (vm_compute; reflexivity).
  replace (Prim2SF 30) with (S754_finite false 8444249301319680 (-48))
    by (vm_compute; reflexivity).
  apply SFltb_same_binade. reflexivity.
Qed.

Lemma is_nan_false_of_ltb (x y : float) :
  (x <? y)%float = true -> is_nan x = false.
Proof.
  intros Hlt. destruct (is_nan x) eqn:Hx; [|reflexivity].
  rewrite (ltb_nan_l x y Hx) in Hlt. discriminate.
Qed.

Lemma is_nan_false_of_leb (x y : float) :
  (y <=? x)%float = true -> is_nan x = false.
Proof.
  intros Hle. destruct (is_nan x) eqn:Hx; [|reflexivity].
  rewrite (leb_nan_r x y Hx) in Hle. discriminate.
Qed.

Lemma leb_negb_ltb (x c : float) :
  is_nan x = false -> is_nan c = false ->
  (c <=? x)%float = negb (x <? c)%float.
Proof.
  intros Hx Hc. rewrite (ltb_negb_leb x c Hx Hc).
  destruct (c <=? x)%float; reflexivity.
Qed.

Ltac bmi_cases x :=
  destruct (is_nan x) eqn:?Hnan;
  [ rewrite ?(ltb_nan_l x) by assumption; rewrite ?(leb_nan_r x) by assumption
  | rewrite ?(leb_negb_ltb x) by (assumption || reflexivity);
    destruct (x <? 18.5)%float eqn:?H18;
    [ rewrite ?(ltb_18_5_25 x H18), ?(ltb_25_30 x (ltb_18_5_25 x H18))
    | destruct (x <? 25)%float eqn:?H25;
      [ rewrite ?(ltb_25_30 x H25)
      | destruct (x <? 30)%float eqn:?H30 ] ] ].

(** C2.  [categorize_bmi] returns one of the five labels on every double;
    each label is returned exactly on its own half-open range, the lower
    bound included, and [Unknown] exactly on NaN; the two infinities fall
    in the outer ranges; a raw BMI cell that is missing or is text the
    numeric parser rejects is labelled [Unknown]. *)
Theorem categorize_bmi_partition `{Pandas} :
  (forall x, In (categorize_bmi x) bmi_categories) /\
  (forall x, categorize_bmi x = "Unknown" <-> is_nan x = true) /\
  (forall x, categorize_bmi x = "Underweight" <-> (x <? 18.5)%float = true) /\
  (forall x, categorize_bmi x = "Normal" <->
             (18.5 <=? x)%float && (x <? 25)%float = true) /\
  (forall x, categorize_bmi x = "Overweight" <->
             (25 <=? x)%float && (x <? 30)%float = true) /\
  (forall x, categorize_bmi x = "Obese" <-> (30 <=? x)%float = true) /\
  (categorize_bmi 18.5 = "Normal" /\
   categorize_bmi 18.49999 = "Underweight" /\
   categorize_bmi 29.9999 = "Overweight" /\
   categorize_bmi 30 = "Obese" /\
   categorize_bmi 17.9 = "Underweight" /\
   categorize_bmi infinity = "Obese" /\
   categorize_bmi neg_infinity = "Underweight" /\
   categorize_bmi nan = "Unknown") /\
  bmi_category_of NaN = "Unknown" /\
  (forall s, bmi_category_of (Str s) =
             match str_to_float s with
             | Some x => categorize_bmi x
             | None => "Unknown"
             end).
Proof.
  repeat apply conj.
  - intros x. unfold categorize_bmi, bmi_categories.
    destruct (is_nan x), (x <? 18.5)%float, (x <? 25)%float, (x <? 30)%float;
      simpl; tauto.
  - intros x. unfold categorize_bmi.
    destruct (is_nan x), (x <? 18.5)%float, (x <? 25)%float, (x <? 30)%float;
      split; congruence.
  - intros x. unfold categorize_bmi. bmi_cases x; split; congruence.
  - intros x. unfold categorize_bmi. bmi_cases x; simpl; split; congruence.
  - intros x. unfold categorize_bmi. bmi_cases x; simpl; split; congruence.
  - intros x. unfold categorize_bmi. bmi_cases x; simpl; split; congruence.
  - vm_compute; reflexivity.
  - vm_compute; reflexivity.
  - vm_compute; reflexivity.
  - vm_compute; reflexivity.
  - vm_compute; reflexivity.
  - vm_compute; reflexivity.
  - vm_compute; reflexivity.
  - vm_compute; reflexivity.
  - reflexivity.
  - intros s. unfold bmi_category_of. simpl.
    destruct (str_to_float s); reflexivity.
Qed.

(** ** Text standardisation *)

Ltac each_ascii c := destruct c as [[] [] [] [] [] [] [] []]; reflexivity.

Lemma is_cased_upper c : is_ascii_cased (ascii_upper c) = is_ascii_cased c.
Proof. each_ascii c. Qed.

Lemma is_cased_lower c : is_ascii_cased (ascii_lower c) = is_ascii_cased c.
Proof. each_ascii c. Qed.

Lemma upper_upper c : ascii_upper (ascii_upper c) = ascii_upper c.
Proof. each_ascii c. Qed.

Lemma lower_lower c : ascii_lower (ascii_lower c) = ascii_lower c.
Proof. each_ascii c. Qed.

Lemma is_space_upper c : is_ascii_space (ascii_upper c) = is_ascii_space c.
Proof. each_ascii c. Qed.

Lemma is_space_lower c : is_ascii_space (ascii_lower c) = is_ascii_space c.
Proof. each_ascii c. Qed.

Lemma space_not_cased c : is_ascii_space c = true -> is_ascii_cased c = false.
Proof. destruct c as [[] [] [] [] [] [] [] []]; vm_compute; congruence. Qed.

Lemma title_from_idem b s : ascii_title_from b (ascii_title_from b s) = ascii_title_from b s.
Proof.
  revert b. induction s as [|c rest IH]; intros b; simpl; [reflexivity|].
  destruct b.
  - rewrite lower_lower, is_cased_lower, IH. reflexivity.
  - rewrite upper_upper, is_cased_upper, IH. reflexivity.
Qed.

Lemma lstrip_title s : ascii_lstrip (ascii_title s) = ascii_title (ascii_lstrip s).
Proof.
  unfold ascii_title. induction s as [|c rest IH]; simpl; [reflexivity|].
  rewrite is_space_upper. destruct (is_ascii_space c) eqn:Hc; [|reflexivity].
  rewrite (space_not_cased c Hc). exact IH.
Qed.

Lemma rstrip_title_from b s : ascii_rstrip (ascii_title_from b s) = ascii_title_from b (ascii_rstrip s).
Proof.
  revert b. induction s as [|c rest IH]; intros b; simpl; [reflexivity|].
  rewrite IH. destruct (ascii_rstrip rest) as [|d kept]; simpl.
  - destruct b; rewrite ?is_space_lower, ?is_space_upper;
      destruct (is_ascii_space c); reflexivity.
  - reflexivity.
Qed.

Lemma rstrip_idem s : ascii_rstrip (ascii_rstrip s) = ascii_rstrip s.
Proof.
  induction s as [|c rest IH]; simpl; [reflexivity|].
  destruct (ascii_rstrip rest) as [|d kept] eqn:E.
  - destruct (is_ascii_space c) eqn:Hc; simpl; [reflexivity|]. rewrite Hc. reflexivity.
  - change (ascii_rstrip (String c (String d kept)))
      with (match ascii_rstrip (String d kept) with
            | EmptyString => if is_ascii_space c then EmptyString else String c EmptyString
            | String _ _ as kept' => String c kept'
            end).
    rewrite IH. reflexivity.
Qed.

Lemma lstrip_starts_clean s : starts_clean (ascii_lstrip s).
Proof.
  induction s as [|c rest IH]; simpl; [exact I|].
  destruct (is_ascii_space c) eqn:Hc; [exact IH|exact Hc].
Qed.

Lemma rstrip_starts_clean s : starts_clean s -> starts_clean (ascii_rstrip s).
Proof.
  destruct s as [|c rest]; simpl; [tauto|]. intros Hc.
  destruct (ascii_rstrip rest); [rewrite Hc|]; exact Hc.
Qed.

Lemma lstrip_clean s : starts_clean s -> ascii_lstrip s = s.
Proof. destruct s as [|c rest]; simpl; [reflexivity|]. intros ->. reflexivity. Qed.

Lemma strip_title_strip s : ascii_strip (ascii_title (ascii_strip s)) = ascii_title (ascii_strip s).
Proof.
  unfold ascii_strip. rewrite lstrip_title.
  rewrite (lstrip_clean (ascii_rstrip (ascii_lstrip s)))
    by apply rstrip_starts_clean, lstrip_starts_clean.
  unfold ascii_title. rewrite rstrip_title_from, rstrip_idem. reflexivity.
Qed.

Lemma title_strip_idem s :
  ascii_title (ascii_strip (ascii_title (ascii_strip s))) = ascii_title (ascii_strip s).
Proof. rewrite strip_title_strip. apply title_from_idem. Qed.

Lemma lower_small c :
  (nat_of_ascii (ascii_lower c) <? 128)%nat = (nat_of_ascii c <? 128)%nat.
Proof. each_ascii c. Qed.

Lemma upper_small c :
  (nat_of_ascii (ascii_upper c) <? 128)%nat = (nat_of_ascii c <? 128)%nat.
Proof. each_ascii c. Qed.

Lemma is_ascii_title_from b s : is_ascii (ascii_title_from b s) = is_ascii s.
Proof.
  revert b. induction s as [|c rest IH]; intros b; [reflexivity|].
  cbn [ascii_title_from is_ascii]. rewrite IH.
  destruct b; rewrite ?lower_small, ?upper_small; reflexivity.
Qed.

Lemma is_ascii_lstrip s : is_ascii s = true -> is_ascii (ascii_lstrip s) = true.
Proof.
  induction s as [|c rest IH]; [reflexivity|]. intros Hs.
  cbn [ascii_lstrip]. destruct (is_ascii_space c); [|exact Hs].
  cbn [is_ascii] in Hs. apply andb_prop in Hs as [_ Hrest]. exact (IH Hrest).
Qed.

Lemma is_ascii_rstrip s : is_ascii s = true -> is_ascii (ascii_rstrip s) = true.
Proof.
  induction s as [|c rest IH]; [reflexivity|].
  cbn [is_ascii ascii_rstrip]. intros [Hc Hrest]%andb_prop. specialize (IH Hrest).
  destruct (ascii_rstrip rest) as [|d kept].
  - destruct (is_ascii_space c); [reflexivity|]. cbn [is_ascii]. rewrite Hc. reflexivity.
  - change (is_ascii (String c (String d kept)))
      with ((nat_of_ascii c <? 128)%nat && is_ascii (String d kept)).
    rewrite Hc, IH. reflexivity.
Qed.

Lemma is_ascii_strip s : is_ascii s = true -> is_ascii (ascii_strip s) = true.
Proof. intros Hs. apply is_ascii_rstrip, is_ascii_lstrip, Hs. Qed.

(** On ASCII text the two library calls are the two loops above. *)
Lemma title_strip_ascii `{Pandas} (s : string) :
  is_ascii s = true -> str_title (str_strip s) = ascii_title (ascii_strip s).
Proof.
  intros Hs. rewrite (str_strip_ascii s Hs).
  apply str_title_ascii, is_ascii_strip, Hs.
Qed.

Lemma standardize_nan `{Pandas} : standardize (Str "nan") = NaN.
Proof.
  unfold standardize. cbn [astype_str].
  rewrite (title_strip_ascii "nan" eq_refl). reflexivity.
Qed.

(** C9.  A cell whose trimmed, title-cased text is the printed form of
    NaN becomes the missing marker NaN, every other cell becoming that
    text, so the text [Nan] is never left in the column.  Standardising a
    cell whose text is made of ASCII characters twice gives what
    standardising it once gives, the result being the trimmed text with
    each run of letters capitalised. *)
Theorem standardize_idempotent_on_ascii `{Pandas} (c : cell) :
  (is_ascii (astype_str c) = true ->
   standardize (standardize c) = standardize c /\
   standardize c =
     (if String.eqb (ascii_title (ascii_strip (astype_str c))) "Nan" then NaN
      else Str (ascii_title (ascii_strip (astype_str c))))) /\
  standardize c =
    (if String.eqb (str_title (str_strip (astype_str c))) "Nan" then NaN
     else Str (str_title (str_strip (astype_str c)))) /\
  standardize NaN = NaN /\
  standardize (Str "nan") = NaN /\
  standardize c <> Str "Nan".
Proof.
  assert (Hstd : standardize c =
    (if String.eqb (str_title (str_strip (astype_str c))) "Nan" then NaN
     else Str (str_title (str_strip (astype_str c))))) by reflexivity.
  split; [|split; [exact Hstd|split; [exact standardize_nan|split;
    [exact standardize_nan|]]]].
  - intros Hascii. rewrite Hstd, (title_strip_ascii _ Hascii).
    split; [|reflexivity].
    destruct (String.eqb (ascii_title (ascii_strip (astype_str c))) "Nan") eqn:E.
    + exact standardize_nan.
    + unfold standardize at 1. cbn [astype_str].
      assert (Htitled : is_ascii (ascii_title (ascii_strip (astype_str c))) = true).
      { unfold ascii_title. rewrite is_ascii_title_from.
        apply is_ascii_strip, Hascii. }
      rewrite (title_strip_ascii _ Htitled), title_strip_idem.
      unfold replace. rewrite E. reflexivity.
  - rewrite Hstd.
    destruct (String.eqb (str_title (str_strip (astype_str c))) "Nan") eqn:E.
    + discriminate.
    + intros [= Heq]. rewrite Heq in E. discriminate.
Qed.

Lemma standardize_idempotent_on_ascii_witness :
  is_ascii (astype_str (Str " yes ")) = true /\
  standardize (standardize (Str " yes ")) = standardize (Str " yes ") /\
  standardize (Str " yes ") = Str "Yes".
Proof.
  split; [reflexivity|].
  destruct (standardize_idempotent_on_ascii (Str " yes ")) as [Hascii _].
  destruct (Hascii eq_refl) as [Hidem Hvalue].
  split; [exact Hidem|exact Hvalue].
Defined.

(** The text [a], capital I with dot above, [a]: title-casing lower-cases
    the capital to [i] followed by a combining dot; the dot is not a cased
    character, so a second title-casing capitalises the [a] that follows
    it.  The cell standardised once is not what standardising it again
    gives. *)
Lemma standardize_dotted_capital_twice :
  standardize (Str ("a" ++ capital_i_dot ++ "a")) =
    Str ("Ai" ++ combining_dot ++ "a") /\
  standardize (standardize (Str ("a" ++ capital_i_dot ++ "a"))) =
    Str ("Ai" ++ combining_dot ++ "A") /\
  String.eqb ("Ai" ++ combining_dot ++ "a") ("Ai" ++ combining_dot ++ "A") = false.
Proof. vm_compute. repeat split. Qed.

(** ** The dietary diversity score *)

Lemma any_item_consumed_spec (r : row) (items : list string) :
  forallb (numeric_item r) items = true ->
  any_item_consumed items r = (Ok (group_consumed r items), r).
Proof.
  induction items as [|item rest IH]; simpl; [reflexivity|].
  intros [Hitem Hrest]%andb_prop. specialize (IH Hrest).
  unfold bind, in_index, row_get, item_consumed, numeric_item in *.
  destruct (r !! coded_name item) as [[s|x]|] eqn:E; simpl.
  - discriminate.
  - rewrite E. unfold notna. simpl. destruct (is_nan x); simpl; [exact IH|].
    rewrite E. unfold ret. simpl.
    destruct (3 <=? x)%float; simpl; [reflexivity|exact IH].
  - exact IH.
Qed.

Lemma count_groups_spec (r : row) groups (score : Z) :
  numeric_codes r groups = true ->
  count_groups groups score r = (Ok (score + dds_count r groups)%Z, r).
Proof.
  revert score. induction groups as [|[group items] rest IH]; intros score.
  - intros _. simpl. unfold ret, dds_count. simpl. f_equal. f_equal. lia.
  - intros [Hitems Hrest]%andb_prop. simpl in Hitems. simpl.
    unfold bind. rewrite (any_item_consumed_spec r items Hitems).
    rewrite (IH _ Hrest). unfold dds_count. simpl.
    destruct (group_consumed r items); simpl length; do 2 f_equal; lia.
Qed.

Lemma calculate_dds_spec (r : row) groups :
  numeric_codes r groups = true ->
  calculate_dds_on groups r = (Ok (dds_count r groups), r).
Proof.
  intros Hnum. unfold calculate_dds_on. rewrite (count_groups_spec r groups 0 Hnum).
  reflexivity.
Qed.

Lemma dds_count_range (r : row) groups :
  (0 <= dds_count r groups <= Z.of_nat (length groups))%Z.
Proof.
  unfold dds_count. split; [lia|].
  apply inj_le. apply List.filter_length_le.
Qed.

Lemma group_consumed_all_missing (r : row) items :
  forallb (item_missing r) items = true -> group_consumed r items = false.
Proof.
  induction items as [|item rest IH]; simpl; [reflexivity|].
  intros [Hitem Hrest]%andb_prop. rewrite (IH Hrest), orb_false_r.
  unfold item_missing, item_consumed in *.
  destruct (r !! coded_name item) as [[s|x]|]; simpl in *;
    [discriminate|rewrite Hitem; reflexivity|reflexivity].
Qed.

(** C1.  On a row whose coded cells are numbers, [calculate_dds] returns,
    without raising, the number of groups of the catalog having an item
    whose coded cell is present and at least 3; that number lies between
    0 and the number of groups; one more group in the catalog adds 1 when
    it has such an item, however many, and 0 otherwise, in particular 0
    when the coded cells of all its items are missing or absent. *)
Theorem calculate_dds_counts_groups (r : row) groups :
  numeric_codes r groups = true ->
  calculate_dds r groups = Ok (dds_count r groups) /\
  (0 <= dds_count r groups <= Z.of_nat (length groups))%Z /\
  (forall group items,
     forallb (numeric_item r) items = true ->
     calculate_dds r ((group, items) :: groups) =
       Ok ((if group_consumed r items then 1 else 0) + dds_count r groups)%Z) /\
  (forall group items,
     forallb (item_missing r) items = true ->
     calculate_dds r ((group, items) :: groups) = Ok (dds_count r groups)).
Proof.
  intros Hnum. repeat apply conj.
  - unfold calculate_dds. rewrite (calculate_dds_spec r groups Hnum). reflexivity.
  - apply dds_count_range.
  - apply dds_count_range.
  - intros group items Hitems. unfold calculate_dds.
    rewrite calculate_dds_spec by (simpl; rewrite Hitems; exact Hnum).
    simpl. unfold dds_count. simpl.
    destruct (group_consumed r items); simpl length; f_equal; lia.
  - intros group items Hmiss. unfold calculate_dds.
    assert (Hitems : forallb (numeric_item r) items = true).
    { clear -Hmiss. induction items as [|item rest IH]; simpl; [reflexivity|].
      simpl in Hmiss. apply andb_prop in Hmiss as [Hitem Hrest].
      rewrite (IH Hrest), andb_true_r. unfold item_missing, numeric_item in *.
      destruct (r !! coded_name item) as [[s|x]|]; simpl in *; congruence. }
    rewrite calculate_dds_spec by (simpl; rewrite Hitems; exact Hnum).
    simpl. unfold dds_count. simpl.
    rewrite (group_consumed_all_missing r items Hmiss). reflexivity.
Qed.

Lemma existsb_Permutation {A} (f : A -> bool) (l l' : list A) :
  Permutation l l' -> existsb f l = existsb f l'.
Proof.
  induction 1 as [|x l l' _ IH|x y l|l l' l'' _ IH1 _ IH2]; simpl.
  - reflexivity.
  - rewrite IH. reflexivity.
  - destruct (f x), (f y); reflexivity.
  - congruence.
Qed.

Lemma forallb_Permutation {A} (f : A -> bool) (l l' : list A) :
  Permutation l l' -> forallb f l = forallb f l'.
Proof.
  induction 1 as [|x l l' _ IH|x y l|l l' l'' _ IH1 _ IH2]; simpl.
  - reflexivity.
  - rewrite IH. reflexivity.
  - destruct (f x), (f y); reflexivity.
  - congruence.
Qed.

Lemma dds_count_Permutation (r : row) groups groups' :
  Permutation groups groups' -> dds_count r groups = dds_count r groups'.
Proof.
  intros Hperm. unfold dds_count. f_equal.
  apply Permutation_length.
  induction Hperm as [|g l l' _ IH|g g' l|l l' l'' _ IH1 _ IH2]; simpl.
  - constructor.
  - destruct (group_consumed r (snd g)); [constructor|]; exact IH.
  - destruct (group_consumed r (snd g)), (group_consumed r (snd g'));
      try reflexivity. constructor.
  - etransitivity; eassumption.
Qed.

Lemma dds_count_same_group (r : row) groups groups' :
  Forall2 same_group groups groups' -> dds_count r groups = dds_count r groups'.
Proof.
  intros Hsame. unfold dds_count. f_equal.
  induction Hsame as [|g g' l l' [_ Hitems] _ IH]; simpl; [reflexivity|].
  assert (Hg : group_consumed r (snd g) = group_consumed r (snd g'))
    by apply existsb_Permutation, Hitems.
  rewrite Hg. destruct (group_consumed r (snd g')); simpl; rewrite IH; reflexivity.
Qed.

Lemma numeric_codes_same_group (r : row) groups groups' :
  Forall2 same_group groups groups' ->
  numeric_codes r groups = numeric_codes r groups'.
Proof.
  unfold numeric_codes.
  induction 1 as [|g g' l l' [_ Hitems] _ IH]; simpl; [reflexivity|].
  rewrite (forallb_Permutation (numeric_item r) _ _ Hitems), IH. reflexivity.
Qed.

Lemma numeric_codes_reordered (r : row) groups groups' :
  catalog_reordered groups groups' ->
  numeric_codes r groups = numeric_codes r groups'.
Proof.
  intros (mid & Hperm & Hsame).
  rewrite <- (numeric_codes_same_group r mid groups' Hsame).
  apply forallb_Permutation, Hperm.
Qed.

Lemma dds_count_reordered (r : row) groups groups' :
  catalog_reordered groups groups' -> dds_count r groups = dds_count r groups'.
Proof.
  intros (mid & Hperm & Hsame).
  rewrite (dds_count_Permutation r groups mid Hperm).
  apply dds_count_same_group, Hsame.
Qed.

Lemma dds_count_same_codes (r r' : row) groups :
  same_codes r r' groups -> dds_count r' groups = dds_count r groups.
Proof.
  intros Hsame. unfold dds_count. f_equal.
  induction Hsame as [|g l Hg _ IH]; simpl; [reflexivity|].
  assert (Hgc : group_consumed r' (snd g) = group_consumed r (snd g)).
  { unfold group_consumed. induction Hg as [|item rest Hitem _ IHg]; simpl;
      [reflexivity|]. unfold item_consumed at 1 3. rewrite Hitem, IHg. reflexivity. }
  rewrite Hgc. destruct (group_consumed r (snd g)); simpl; rewrite IH; reflexivity.
Qed.

Lemma numeric_codes_same_codes (r r' : row) groups :
  same_codes r r' groups -> numeric_codes r' groups = numeric_codes r groups.
Proof.
  intros Hsame. unfold numeric_codes.
  induction Hsame as [|g l Hg _ IH]; simpl; [reflexivity|].
  rewrite IH. f_equal.
  induction Hg as [|item rest Hitem _ IHg]; simpl; [reflexivity|].
  unfold numeric_item at 1 3. rewrite Hitem, IHg. reflexivity.
Qed.

(** Scoring reads the row and hands it back as it was, also when it raises. *)
Lemma any_item_consumed_reads (r : row) items : snd (any_item_consumed items r) = r.
Proof.
  induction items as [|item rest IH]; simpl; [reflexivity|].
  unfold bind, in_index, row_get. simpl.
  destruct (r !! coded_name item) as [c|] eqn:E; simpl; [|exact IH].
  rewrite E. destruct (notna c); [|exact IH]. rewrite E.
  destruct c as [s|x]; simpl; [reflexivity|].
  destruct (3 <=? x)%float; [reflexivity|exact IH].
Qed.

Lemma count_groups_reads (r : row) groups score :
  snd (count_groups groups score r) = r.
Proof.
  revert score. induction groups as [|[group items] rest IH]; intros score;
    simpl; [reflexivity|].
  unfold bind. pose proof (any_item_consumed_reads r items) as Hr.
  destruct (any_item_consumed items r) as [[b|e] r']; simpl in Hr; subst r'.
  - apply IH.
  - reflexivity.
Qed.

(** C8.  On a row whose coded cells are numbers the score is the same for
    any other order of the groups of the catalog and of the items of each
    group; it is the same for any row with the same coded cells; and
    scoring leaves the row as it found it. *)
Theorem calculate_dds_order_independent (r : row) groups :
  numeric_codes r groups = true ->
  (forall groups',
     catalog_reordered groups groups' ->
     calculate_dds r groups' = calculate_dds r groups) /\
  (forall r',
     same_codes r r' groups ->
     calculate_dds r' groups = calculate_dds r groups) /\
  snd (calculate_dds_on groups r) = r.
Proof.
  intros Hnum. repeat apply conj.
  - intros groups' Hre. unfold calculate_dds.
    rewrite (calculate_dds_spec r groups Hnum).
    rewrite calculate_dds_spec
      by (rewrite <- (numeric_codes_reordered r groups groups' Hre); exact Hnum).
    simpl. rewrite (dds_count_reordered r groups groups' Hre). reflexivity.
  - intros r' Hsame. unfold calculate_dds.
    rewrite (calculate_dds_spec r groups Hnum).
    rewrite calculate_dds_spec
      by (rewrite (numeric_codes_same_codes r r' groups Hsame); exact Hnum).
    simpl. rewrite (dds_count_same_codes r r' groups Hsame). reflexivity.
  - apply count_groups_reads.
Qed.

Lemma catalog_reordered_backwards groups :
  catalog_reordered groups (backwards groups).
Proof.
  exists (rev groups). split; [apply Permutation_rev|].
  unfold backwards. induction (rev groups) as [|g l IH]; simpl; constructor.
  - split; [reflexivity|apply Permutation_rev].
  - exact IH.
Qed.

Lemma calculate_dds_counts_groups_witness :
  numeric_codes rice_daily food_groups = true /\
  calculate_dds rice_daily food_groups = Ok 1%Z.
Proof.
  split; [vm_compute; reflexivity|].
  exact (proj1 (calculate_dds_counts_groups rice_daily food_groups
                  ltac:(vm_compute; reflexivity))).
Defined.

Lemma calculate_dds_order_independent_witness :
  numeric_codes rice_daily food_groups = true /\
  calculate_dds rice_daily (backwards food_groups) =
    calculate_dds rice_daily food_groups.
Proof.
  split; [vm_compute; reflexivity|].
  exact (proj1 (calculate_dds_order_independent rice_daily food_groups
                  ltac:(vm_compute; reflexivity))
               (backwards food_groups)
               (catalog_reordered_backwards food_groups)).
Defined.

(** ** The frequency coder *)

(** The nineteen keys of the dict, one case each. *)
Ltac table_cases H :=
  unfold frequency_mapping in H; apply elem_of_list_to_map_2 in H;
  repeat (apply elem_of_cons in H as [[= -> ->]|H]);
  [..|apply elem_of_nil in H; destruct H].

Lemma frequency_mapping_intended (s : string) (k : Z) :
  frequency_mapping !! s = Some k -> intended_code (lowercase s) = Some k.
Proof. intros Hs. table_cases Hs; reflexivity. Qed.

Lemma frequency_mapping_range (s : string) (k : Z) :
  frequency_mapping !! s = Some k -> (1 <= k <= 6)%Z.
Proof. intros Hs. table_cases Hs; lia. Qed.

Lemma frequency_mapping_ordinal (s : string) (k : Z) :
  frequency_mapping !! s = Some k ->
  is_nan (of_int k) = false /\ is_ordinal_code (Num (of_int k)) = true.
Proof. intros Hs. table_cases Hs; split; vm_compute; reflexivity. Qed.

Lemma code_cell_listed `{Pandas} (s : string) (k : Z) :
  frequency_mapping !! s = Some k -> code_cell (Str s) = Num (of_int k).
Proof.
  intros Hs. unfold code_cell, map_cell. rewrite Hs. simpl.
  destruct (frequency_mapping_ordinal s k Hs) as [-> _]. reflexivity.
Qed.

Lemma code_cell_unlisted `{Pandas} (c : cell) :
  in_table c = false -> code_cell c = Num (to_numeric_cell c).
Proof.
  destruct c as [s|x]; unfold in_table; intros Hc; [|reflexivity].
  unfold code_cell, map_cell.
  destruct (frequency_mapping !! s) as [k|] eqn:Hs; [|reflexivity].
  rewrite bool_decide_true in Hc by eauto. discriminate.
Qed.

Lemma code_cell_number `{Pandas} (c : cell) : exists x, code_cell c = Num x.
Proof.
  destruct c as [s|x]; [|exists x; reflexivity].
  destruct (frequency_mapping !! s) as [k|] eqn:Hs.
  - exists (of_int k). apply code_cell_listed, Hs.
  - exists (to_numeric_cell (Str s)). apply code_cell_unlisted.
    unfold in_table. rewrite Hs. reflexivity.
Qed.

Lemma fillna_cells `{Pandas} (raw : list cell) :
  fillna (map (map_cell frequency_mapping) raw) (to_numeric raw) = map code_cell raw.
Proof.
  induction raw as [|c rest IH]; simpl; [reflexivity|].
  rewrite IH. reflexivity.
Qed.

Lemma mapped_cells `{Pandas} (raw : list cell) :
  existsb isna (map (map_cell frequency_mapping) raw) = false ->
  map (map_cell frequency_mapping) raw = map code_cell raw.
Proof.
  induction raw as [|c rest IH]; simpl; [reflexivity|].
  intros [Hc Hrest]%orb_false_elim. rewrite (IH Hrest).
  unfold code_cell. rewrite Hc. reflexivity.
Qed.

Lemma code_column_cells `{Pandas} (raw : list cell) :
  code_column raw = map code_cell raw.
Proof.
  unfold code_column.
  destruct (existsb isna (map (map_cell frequency_mapping) raw)) eqn:E.
  - apply fillna_cells.
  - apply mapped_cells, E.
Qed.

Lemma length_coded_name (col : string) :
  String.length (coded_name col) = (String.length col + 6)%nat.
Proof.
  unfold coded_name. induction col as [|c rest IH]; simpl; [reflexivity|].
  rewrite IH. reflexivity.
Qed.

Lemma coded_name_ne (col : string) : coded_name col <> col.
Proof.
  intros Heq. apply (f_equal String.length) in Heq.
  rewrite length_coded_name in Heq. lia.
Qed.

Lemma code_item_spec `{Pandas} (col : string) (w : world) :
  code_item col w =
    (Ok tt, match columns (data w) !! col with
            | Some raw => with_coded col raw w
            | None => w
            end).
Proof.
  unfold code_item, bind, has_column, getitem, setitem, try_pass, with_coded.
  destruct (columns (data w) !! col) as [raw|] eqn:Hraw; simpl; [|reflexivity].
  rewrite Hraw. simpl. rewrite lookup_insert_eq.
  destruct (existsb isna (map (map_cell frequency_mapping) raw)) eqn:E; simpl.
  - rewrite lookup_insert_eq. simpl.
    rewrite lookup_insert_ne by apply coded_name_ne. rewrite Hraw. simpl.
    rewrite insert_insert_eq, fillna_cells. reflexivity.
  - unfold ret. rewrite (mapped_cells raw E). reflexivity.
Qed.

Lemma for_each_never_raises {S A} (body : A -> M S unit) (xs : list A) (s : S) :
  (forall x s', fst (body x s') = Ok tt) -> fst (for_each xs body s) = Ok tt.
Proof.
  intros Hbody. revert s. induction xs as [|x rest IH]; intros s; simpl;
    [reflexivity|].
  unfold bind. specialize (Hbody x s).
  destruct (body x s) as [[[]|e] s']; simpl in Hbody; [apply IH|discriminate].
Qed.

Example code_column_rice_answers :
  code_column rice_answers = [Num 6; Num 3; Num 3; NaN; NaN].
Proof. vm_compute. reflexivity. Qed.

(** C3, as the code has it.  A coded cell is always a number or NaN,
    never text: it is the code of the table, between 1 and 6, when the
    raw cell is a key of the table, and otherwise whatever number the raw
    cell holds or parses to, NaN when there is none. *)
Theorem coded_cell_values `{Pandas} (c : cell) :
  (exists x, code_cell c = Num x) /\
  code_cell c =
    match c with
    | Str s =>
        match frequency_mapping !! s with
        | Some k => Num (of_int k)
        | None => Num (to_numeric_cell c)
        end
    | Num x => Num x
    end /\
  (in_table c = true -> is_ordinal_code (code_cell c) = true) /\
  (in_table c = false -> code_cell c = Num (to_numeric_cell c)) /\
  (forall raw, code_column raw = map code_cell raw).
Proof.
  assert (Hval : code_cell c =
    match c with
    | Str s =>
        match frequency_mapping !! s with
        | Some k => Num (of_int k)
        | None => Num (to_numeric_cell c)
        end
    | Num x => Num x
    end).
  { destruct c as [s|x]; [|reflexivity].
    destruct (frequency_mapping !! s) as [k|] eqn:Hs.
    - apply code_cell_listed, Hs.
    - apply code_cell_unlisted. unfold in_table. rewrite Hs. reflexivity. }
  repeat apply conj.
  - apply code_cell_number.
  - exact Hval.
  - destruct c as [s|x]; unfold in_table; [|discriminate]. intros Hin.
    destruct (frequency_mapping !! s) as [k|] eqn:Hs.
    + rewrite (code_cell_listed s k Hs). apply (frequency_mapping_ordinal s k Hs).
    + rewrite bool_decide_false in Hin by (intros [? ?]; discriminate).
      discriminate.
  - apply code_cell_unlisted.
  - apply code_column_cells.
Qed.

(** A raw cell holding the number 7 is coded 7, which is neither missing
    nor one of 1..6; so is the numeric string [7]. *)
Lemma coded_cell_outside_ordinals :
  code_column [Num 7; Str "7"] = [Num 7; Num 7] /\
  isna (Num 7) = false /\
  is_ordinal_code (Num 7) = false.
Proof. vm_compute. repeat split. Qed.

(** C5, as the code has it.  The lookup is exact: two spellings listed in
    the table that differ by case alone have the same code, which is the
    code the specification gives that synonym, and the coded cell of a
    listed spelling holds that code; [2-3X] is listed with code 4 and the
    three listed casings of [daily] have code 6. *)
Theorem listed_casings_agree `{Pandas} (s1 s2 : string) (k1 k2 : Z) :
  frequency_mapping !! s1 = Some k1 ->
  frequency_mapping !! s2 = Some k2 ->
  lowercase s1 = lowercase s2 ->
  k1 = k2 /\
  intended_code (lowercase s1) = Some k1 /\
  code_cell (Str s1) = Num (of_int k1) /\
  code_cell (Str s1) = code_cell (Str s2) /\
  frequency_mapping !! "2-3X" = Some 4%Z /\
  frequency_mapping !! "daily" = Some 6%Z /\
  frequency_mapping !! "Daily" = Some 6%Z /\
  frequency_mapping !! "DAILY" = Some 6%Z.
Proof.
  intros H1 H2 Hcase.
  pose proof (frequency_mapping_intended s1 k1 H1) as I1.
  pose proof (frequency_mapping_intended s2 k2 H2) as I2.
  assert (Hk : k1 = k2) by congruence.
  repeat apply conj; try (vm_compute; reflexivity).
  - exact Hk.
  - exact I1.
  - apply code_cell_listed, H1.
  - rewrite (code_cell_listed s1 k1 H1), (code_cell_listed s2 k2 H2), Hk.
    reflexivity.
Qed.

Lemma listed_casings_agree_witness :
  code_cell (Str "2-3X") = code_cell (Str "2-3x") /\
  code_cell (Str "2-3X") = Num 4.
Proof.
  pose proof (listed_casings_agree "2-3X" "2-3x" 4 4
                ltac:(vm_compute; reflexivity) ltac:(vm_compute; reflexivity)
                ltac:(vm_compute; reflexivity)) as (_ & _ & Hcode & Hsame & _).
  split; [exact Hsame|exact Hcode].
Defined.

(** [DaIlY] is a casing of [daily], which has code 6, and is not a key
    of the table. *)
Lemma unlisted_casing_has_no_code :
  lowercase "DaIlY" = lowercase "daily" /\
  frequency_mapping !! "daily" = Some 6%Z /\
  frequency_mapping !! "DaIlY" = None /\
  code_column [Str "daily"; Str "DaIlY"] = [Num 6; NaN].
Proof. vm_compute. repeat split. Qed.

(** C6.  The body of the coding loop never raises, nor does the loop; it
    touches no file; for a column that is present it writes the coded
    column cell by cell, and for an absent one it changes nothing.  A cell
    the table does not list is coded as the number it holds or parses to,
    and as NaN when it is text that does not parse. *)
Theorem code_item_never_raises `{Pandas} (w : world) (col : string) :
  fst (code_item col w) = Ok tt /\
  fst (code_frequencies w) = Ok tt /\
  snd (code_item col w) =
    match columns (data w) !! col with
    | Some raw => with_coded col raw w
    | None => w
    end /\
  files (snd (code_item col w)) = files w /\
  (forall x, code_cell (Num x) = Num x) /\
  (forall s, frequency_mapping !! s = None ->
             code_cell (Str s) =
               match str_to_float s with
               | Some x => Num x
               | None => NaN
               end).
Proof.
  repeat apply conj.
  - rewrite code_item_spec. reflexivity.
  - unfold code_frequencies. apply for_each_never_raises.
    intros x s'. rewrite code_item_spec. reflexivity.
  - rewrite code_item_spec. reflexivity.
  - rewrite code_item_spec. simpl. destruct (columns (data w) !! col); reflexivity.
  - reflexivity.
  - intros s Hs.
    rewrite code_cell_unlisted by (unfold in_table; rewrite Hs; reflexivity).
    unfold to_numeric_cell. destruct (str_to_float s); reflexivity.
Qed.

(** C10.  In a raw column, a cell that is not a key of the table and that
    holds or parses to the number [x] is coded [x]. *)
Theorem numeric_cells_pass_through `{Pandas}
    (raw : list cell) (i : nat) (c : cell) (x : float) :
  raw !! i = Some c ->
  in_table c = false ->
  to_numeric_cell c = x ->
  code_column raw !! i = Some (Num x) /\ code_cell c = Num x.
Proof.
  intros Hi Hc Hx. rewrite code_column_cells, list_lookup_fmap, Hi.
  change (code_cell <$> Some c) with (Some (code_cell c)).
  rewrite (code_cell_unlisted c Hc), Hx. split; reflexivity.
Qed.

Lemma numeric_cells_pass_through_witness :
  code_column rice_answers !! 1%nat = Some (Num 3) /\
  code_column rice_answers !! 2%nat = Some (Num 3).
Proof.
  split.
  - exact (proj1 (numeric_cells_pass_through rice_answers 1 (Str "3") 3
                    eq_refl ltac:(vm_compute; reflexivity)
                    ltac:(vm_compute; reflexivity))).
  - exact (proj1 (numeric_cells_pass_through rice_answers 2 (Num 3) 3
                    eq_refl ltac:(vm_compute; reflexivity)
                    ltac:(vm_compute; reflexivity))).
Defined.

(** ** The catalogs of the three scripts *)

(** C4, as the code has it.  The catalog of the dietary-patterns script is
    the catalog of the preparation script, group for group and item for
    item; the catalog of the advanced-analysis script is that catalog
    without the groups Spices and Drinks, its eight groups being the same
    and in the same order. *)
Theorem food_groups_across_scripts :
  analysis_dietary_patterns.food_groups = food_groups /\
  advanced_analysis.food_groups =
    List.filter (fun g => negb (String.eqb (fst g) "Spices" || String.eqb (fst g) "Drinks"))
                food_groups /\
  (forall name items,
     dict_get name advanced_analysis.food_groups = Some items ->
     dict_get name food_groups = Some items).
Proof.
  repeat apply conj; try reflexivity.
  intros name items. unfold advanced_analysis.food_groups, food_groups.
  cbn [dict_get].
  repeat (match goal with
          | |- context [String.eqb ?group name] =>
              destruct (String.eqb_spec group name) as [<-|_]
          end; [vm_compute; intros [= <-]; reflexivity|]).
  discriminate.
Qed.

(** The preparation script has ten groups, the advanced-analysis script
    eight: it has no Spices and no Drinks. *)
Lemma advanced_analysis_lacks_groups :
  length food_groups = 10%nat /\
  length advanced_analysis.food_groups = 8%nat /\
  dict_get "Spices" advanced_analysis.food_groups = None /\
  dict_get "Drinks" advanced_analysis.food_groups = None /\
  dict_get "Drinks" food_groups =
    Some ["Water"; "Soft drinks"; "Alcoholic beverages"; "Wines"; "Palm wine";
          "Beer"; "Drink_Other"].
Proof. vm_compute. repeat split. Qed.

(** ** The whole run *)

Lemma for_each_invariant {S A} (I : S -> Prop) (body : A -> M S unit) (xs : list A) :
  (forall x s, In x xs -> I s -> fst (body x s) = Ok tt /\ I (snd (body x s))) ->
  forall s, I s ->
    fst (for_each xs body s) = Ok tt /\ I (snd (for_each xs body s)).
Proof.
  induction xs as [|x rest IH]; intros Hbody s Hs; simpl; [split; [reflexivity|exact Hs]|].
  unfold bind. destruct (Hbody x s (or_introl eq_refl) Hs) as [Hok Hinv].
  destruct (body x s) as [[[]|e] s']; simpl in Hok, Hinv; [|discriminate].
  apply IH; [|exact Hinv]. intros y t Hy. apply Hbody. right. exact Hy.
Qed.

Lemma standardize_text_shape `{Pandas} (w : world) :
  fst (standardize_text w) = Ok tt /\ same_shape w (snd (standardize_text w)).
Proof.
  unfold standardize_text. apply (for_each_invariant (same_shape w)).
  - intros col s _ (Hfiles & Hrows & Hdom).
    unfold bind, has_column, getitem, setitem.
    destruct (columns (data s) !! col) as [series|] eqn:E; simpl.
    + rewrite E. simpl. split; [reflexivity|]. repeat split; try assumption.
      * intros Hk. simpl in Hk. apply Hdom.
        destruct (decide (col = k)) as [<-|Hne];
          [rewrite lookup_insert_eq in Hk; discriminate|].
        rewrite lookup_insert_ne in Hk by exact Hne. exact Hk.
      * intros Hk%Hdom. simpl.
        destruct (decide (col = k)) as [<-|Hne]; [congruence|].
        rewrite lookup_insert_ne by exact Hne. exact Hk.
    + split; [reflexivity|]. repeat split; assumption || apply Hdom.
  - repeat split; intros Hk; exact Hk.
Qed.

Lemma code_item_columns `{Pandas} (col : string) (w : world) :
  columns (data (snd (code_item col w))) =
    match columns (data w) !! col with
    | Some raw => <[coded_name col := map code_cell raw]> (columns (data w))
    | None => columns (data w)
    end /\
  files (snd (code_item col w)) = files w /\
  nrows (data (snd (code_item col w))) = nrows (data w).
Proof.
  rewrite code_item_spec. simpl.
  destruct (columns (data w) !! col); repeat split.
Qed.

Lemma code_cell_is_number `{Pandas} (raw : list cell) :
  forallb is_number (map code_cell raw) = true.
Proof.
  induction raw as [|c rest IH]; simpl; [reflexivity|]. rewrite IH, andb_true_r.
  destruct (code_cell_number c) as [x ->]. reflexivity.
Qed.

(** What the coding loop keeps true, whatever the items it runs over. *)
Lemma code_loop_keeps `{Pandas} (I : world -> Prop) (items : list string) :
  (forall col raw w,
     In col items -> I w -> columns (data w) !! col = Some raw ->
     I (with_coded col raw w)) ->
  forall w, I w -> I (snd (for_each items code_item w)).
Proof.
  intros Hstep w Hw. revert w Hw. apply for_each_invariant.
  intros col s Hcol Hs. rewrite code_item_spec. simpl. split; [reflexivity|].
  destruct (columns (data s) !! col) as [raw|] eqn:E; [|exact Hs].
  apply Hstep; assumption.
Qed.

Lemma code_frequencies_frame `{Pandas} (w : world) :
  files (snd (code_frequencies w)) = files w /\
  nrows (data (snd (code_frequencies w))) = nrows (data w).
Proof.
  unfold code_frequencies.
  apply (code_loop_keeps
           (fun w' => files w' = files w /\ nrows (data w') = nrows (data w))
           all_food_items).
  - intros col raw s _ Hs _. exact Hs.
  - split; reflexivity.
Qed.

Lemma code_frequencies_other `{Pandas} (w : world) (k : string) :
  (forall item, In item all_food_items -> coded_name item <> k) ->
  columns (data (snd (code_frequencies w))) !! k = columns (data w) !! k.
Proof.
  intros Hk. unfold code_frequencies.
  apply (code_loop_keeps
           (fun w' => columns (data w') !! k = columns (data w) !! k)
           all_food_items).
  - intros col raw s Hcol Hs _. simpl.
    rewrite lookup_insert_ne by (apply Hk, Hcol). exact Hs.
  - reflexivity.
Qed.

Lemma code_frequencies_numeric `{Pandas} (w : world) :
  coded_numeric (data w) -> coded_numeric (data (snd (code_frequencies w))).
Proof.
  intros Hnum. unfold code_frequencies.
  apply (code_loop_keeps (fun w' => coded_numeric (data w')) all_food_items);
    [|exact Hnum].
  intros col raw s _ Hs _ item series Hitem. simpl.
  destruct (decide (coded_name col = coded_name item)) as [->|Hne].
  - rewrite lookup_insert_eq. intros [= <-]. apply code_cell_is_number.
  - rewrite lookup_insert_ne by exact Hne. apply Hs, Hitem.
Qed.

(** The names the script writes or reads besides the coded columns, and
    the names of the items themselves, are not names of coded columns. *)
Lemma coded_names_fresh (item k : string) :
  In item all_food_items ->
  In k (reserved_columns ++ all_food_items) ->
  coded_name item <> k.
Proof.
  intros Hitem Hk.
  assert (Hall : forallb (fun item =>
                    forallb (fun k => negb (String.eqb (coded_name item) k))
                            (reserved_columns ++ all_food_items))
                         all_food_items = true) by (vm_compute; reflexivity).
  rewrite forallb_forall in Hall. specialize (Hall item Hitem).
  rewrite forallb_forall in Hall. specialize (Hall k Hk).
  intros Heq. rewrite Heq, String.eqb_refl in Hall. discriminate.
Qed.

Lemma coded_names_reserved (item k : string) :
  In item all_food_items -> In k reserved_columns -> coded_name item <> k.
Proof.
  intros Hitem Hk. apply coded_names_fresh; [exact Hitem|].
  apply in_or_app. left. exact Hk.
Qed.

Lemma coded_name_inj_items (item item' : string) :
  In item all_food_items -> In item' all_food_items ->
  coded_name item = coded_name item' -> item = item'.
Proof.
  intros Hitem Hitem'.
  assert (Hall : forallb (fun a =>
                    forallb (fun b => implb (String.eqb (coded_name a) (coded_name b))
                                            (String.eqb a b))
                            all_food_items)
                         all_food_items = true) by (vm_compute; reflexivity).
  rewrite forallb_forall in Hall. specialize (Hall item Hitem).
  rewrite forallb_forall in Hall. specialize (Hall item' Hitem').
  intros Heq. rewrite Heq, String.eqb_refl in Hall. simpl in Hall.
  apply String.eqb_eq, Hall.
Qed.

Lemma code_frequencies_absent `{Pandas} (w : world) (item : string) :
  In item all_food_items ->
  columns (data w) !! item = None ->
  columns (data w) !! coded_name item = None ->
  columns (data (snd (code_frequencies w))) !! coded_name item = None.
Proof.
  intros Hitem Hraw Hcoded. unfold code_frequencies.
  apply (code_loop_keeps
           (fun w' => columns (data w') !! item = None /\
                      columns (data w') !! coded_name item = None)
           all_food_items);
    [|split; assumption].
  intros col raw s Hcol [Hs1 Hs2] Hpresent. simpl.
  assert (Hne : col <> item) by congruence.
  split.
  - rewrite lookup_insert_ne; [exact Hs1|].
    apply coded_names_fresh; [exact Hcol|]. apply in_or_app. right. exact Hitem.
  - rewrite lookup_insert_ne; [exact Hs2|].
    intros Heq. apply Hne. apply coded_name_inj_items; assumption.
Qed.

Lemma coded_numeric_rows (df : dataframe) (i : nat) :
  coded_numeric df -> numeric_codes (row_at df i) food_groups = true.
Proof.
  intros Hnum. unfold numeric_codes. apply forallb_forall. intros g Hg.
  apply forallb_forall. intros item Hitem.
  assert (Hall : In item all_food_items).
  { unfold all_food_items. apply in_flat_map. exists g. split; [exact Hg|].
    destruct g. exact Hitem. }
  unfold numeric_item, row_at. rewrite lookup_omap.
  destruct (columns df !! coded_name item) as [series|] eqn:E; [|reflexivity].
  simpl. destruct (series !! i) as [c|] eqn:Ec; [|reflexivity].
  pose proof (Hnum item series Hall E) as Hseries.
  rewrite forallb_forall in Hseries.
  apply list_elem_of_lookup_2, list_elem_of_In in Ec.
  specialize (Hseries c Ec). destruct c; [discriminate|reflexivity].
Qed.

Lemma map_result_ok {A B} (f : A -> result B) (g : A -> B) (xs : list A) :
  (forall x, In x xs -> f x = Ok (g x)) -> map_result f xs = Ok (map g xs).
Proof.
  induction xs as [|x rest IH]; intros Hf; simpl; [reflexivity|].
  rewrite (Hf x (or_introl eq_refl)), IH; [reflexivity|].
  intros y Hy. apply Hf. right. exact Hy.
Qed.

Lemma compute_bmi_spec `{Pandas} (w : world) :
  compute_bmi w =
    match columns (data w) !! "BMI" with
    | Some bmi => (Ok tt, with_bmi bmi w)
    | None => (Raise (KeyError "BMI"), w)
    end.
Proof.
  unfold compute_bmi, bind, getitem, setitem, with_bmi.
  destruct (columns (data w) !! "BMI"); reflexivity.
Qed.

Lemma compute_dds_spec (w : world) :
  coded_numeric (data w) -> compute_dds w = (Ok tt, with_dds w).
Proof.
  intros Hnum. unfold compute_dds, apply_rows.
  rewrite (map_result_ok _ (fun i => dds_count (row_at (data w) i) food_groups)).
  - unfold with_dds, setitem. rewrite map_map. reflexivity.
  - intros i _. unfold calculate_dds.
    rewrite (calculate_dds_spec _ _ (coded_numeric_rows (data w) i Hnum)).
    reflexivity.
Qed.

Lemma write_summary_spec (w : world) :
  is_Some (columns (data w) !! "BMI_category") ->
  is_Some (columns (data w) !! "DDS") ->
  write_summary w =
    match columns (data w) !! "Residence" with
    | Some _ =>
        (Ok tt, mk_world (data w)
                         (files w ++ [TextFile "data_preparation_summary.txt"]))
    | None => (Raise (KeyError "Residence"), w)
    end.
Proof.
  intros [categories Hcat] [scores Hdds].
  unfold write_summary, bind, getitem, has_column, write_file.
  destruct (columns (data w) !! "Residence") as [residence|] eqn:Hres;
    [|reflexivity].
  rewrite Hres. simpl.
  destruct (columns (data w) !! "Age Group ") as [age|] eqn:Hage; simpl.
  - rewrite Hage, Hcat, Hdds. reflexivity.
  - unfold ret. rewrite Hcat, Hdds. reflexivity.
Qed.

Lemma code_frequencies_ok `{Pandas} (w : world) : fst (code_frequencies w) = Ok tt.
Proof.
  unfold code_frequencies. apply for_each_never_raises.
  intros col s. rewrite code_item_spec. reflexivity.
Qed.

Lemma no_coded_columns_None (df : dataframe) (item : string) :
  no_coded_columns df = true -> In item all_food_items ->
  columns df !! coded_name item = None.
Proof.
  unfold no_coded_columns. rewrite forallb_forall. intros Hall Hitem.
  specialize (Hall item Hitem). simpl in Hall.
  destruct (columns df !! coded_name item); [discriminate|reflexivity].
Qed.

(** The table and the files once the two loops have run. *)
Lemma after_loops `{Pandas} (df : dataframe) :
  let w2 := snd (code_frequencies (snd (standardize_text (mk_world df [])))) in
  files w2 = [] /\
  (forall k, In k reserved_columns ->
     columns (data w2) !! k = None <-> columns df !! k = None) /\
  (no_coded_columns df = true ->
     coded_numeric (data w2) /\
     forall item, In item all_food_items -> columns df !! item = None ->
       columns (data w2) !! coded_name item = None).
Proof.
  intros w2. subst w2. set (w0 := mk_world df []).
  destruct (standardize_text_shape w0) as (_ & Hfiles1 & _ & Hdom1).
  set (w1 := snd (standardize_text w0)) in *.
  destruct (code_frequencies_frame w1) as [Hfiles2 _].
  split; [|split].
  - rewrite Hfiles2, Hfiles1. reflexivity.
  - intros k Hk. rewrite code_frequencies_other, Hdom1; [reflexivity|].
    intros item Hitem. apply coded_names_fresh; [exact Hitem|].
    apply in_or_app. left. exact Hk.
  - intros Hraw0. split.
    + apply code_frequencies_numeric. intros item series Hitem Hsome.
      pose proof (no_coded_columns_None df item Hraw0 Hitem) as E.
      apply (Hdom1 (coded_name item)) in E. congruence.
    + intros item Hitem Hraw. apply code_frequencies_absent; [exact Hitem| |].
      * apply Hdom1. exact Hraw.
      * apply Hdom1. exact (no_coded_columns_None df item Hraw0 Hitem).
Qed.

Lemma with_bmi_numeric `{Pandas} (bmi : list cell) (w : world) :
  coded_numeric (data w) -> coded_numeric (data (with_bmi bmi w)).
Proof.
  intros Hnum item series Hitem. unfold with_bmi. cbn [data columns].
  rewrite !lookup_insert_ne.
  - apply Hnum, Hitem.
  - apply not_eq_sym, coded_names_reserved; [exact Hitem|].
    right; left; reflexivity.
  - apply not_eq_sym, coded_names_reserved; [exact Hitem|].
    right; right; left; reflexivity.
Qed.

(** The run, step by step, from the state the two loops leave. *)
Lemma main_spec `{Pandas} (df : dataframe) :
  no_coded_columns df = true \/ columns df !! "BMI" = None ->
  let w2 := snd (code_frequencies (snd (standardize_text (mk_world df [])))) in
  run_preparation df =
    match columns (data w2) !! "BMI" with
    | None => (Raise (KeyError "BMI"), w2)
    | Some bmi =>
        let w4 := with_dds (with_bmi bmi w2) in
        let w5 := mk_world (data w4) (files w4 ++ [CsvFile "cleaned_data.csv" (data w4)]) in
        match columns (data w2) !! "Residence" with
        | Some _ =>
            (Ok tt, mk_world (data w5)
                             (files w5 ++ [TextFile "data_preparation_summary.txt"]))
        | None => (Raise (KeyError "Residence"), w5)
        end
    end.
Proof.
  intros Hpre w2. unfold run_preparation, main, bind.
  set (w0 := mk_world df []) in *. set (w1 := snd (standardize_text w0)) in *.
  destruct (standardize_text_shape w0) as [Hok1 _]. fold w1 in Hok1.
  pose proof (code_frequencies_ok w1) as Hok2. fold w2 in Hok2.
  rewrite (surjective_pairing (standardize_text w0)), Hok1. fold w1.
  rewrite (surjective_pairing (code_frequencies w1)), Hok2. fold w2.
  rewrite compute_bmi_spec.
  destruct (after_loops df) as (_ & Hres & Hnum). fold w0 w1 w2 in Hres, Hnum.
  destruct (columns (data w2) !! "BMI") as [bmi|] eqn:Hbmi; [|reflexivity].
  destruct Hpre as [Hpre|Hpre].
  2:{ apply (Hres "BMI") in Hpre; [congruence|left; reflexivity]. }
  destruct (Hnum Hpre) as [Hcoded _].
  rewrite (compute_dds_spec _ (with_bmi_numeric bmi w2 Hcoded)).
  unfold to_csv, write_file. cbv zeta.
  rewrite write_summary_spec; unfold with_dds, with_bmi; cbn [data columns files nrows].
  - rewrite !lookup_insert_ne by discriminate. reflexivity.
  - rewrite lookup_insert_ne by discriminate.
    rewrite lookup_insert_eq. eauto.
  - rewrite lookup_insert_eq. eauto.
Qed.

(** C7, as the code has it.  Without a [BMI] column the run aborts with a
    KeyError naming [BMI] and has written no file.  Without a [Residence]
    column (and with [BMI]) it aborts with a KeyError naming [Residence],
    after the cleaned table has been exported and before the summary is
    written.  With both, it completes and writes the two files whichever
    food-item columns are absent: an absent item is skipped, and the
    exported table has no coded column for it. *)
Theorem preparation_outcomes `{Pandas} (df : dataframe) :
  (columns df !! "BMI" = None ->
     fst (run_preparation df) = Raise (KeyError "BMI") /\
     written (snd (run_preparation df)) = []) /\
  (no_coded_columns df = true ->
   is_Some (columns df !! "BMI") ->
   columns df !! "Residence" = None ->
     fst (run_preparation df) = Raise (KeyError "Residence") /\
     written (snd (run_preparation df)) = ["cleaned_data.csv"]) /\
  (no_coded_columns df = true ->
   is_Some (columns df !! "BMI") ->
   is_Some (columns df !! "Residence") ->
     fst (run_preparation df) = Ok tt /\
     written (snd (run_preparation df)) =
       ["cleaned_data.csv"; "data_preparation_summary.txt"] /\
     forall item,
       In item all_food_items -> columns df !! item = None ->
       exists table,
         exported "cleaned_data.csv" (files (snd (run_preparation df))) = Some table /\
         columns table !! coded_name item = None).
Proof.
  destruct (after_loops df) as (Hfiles & Hres & Hnum).
  set (w2 := snd (code_frequencies (snd (standardize_text (mk_world df []))))) in *.
  assert (Hbmi_k : In "BMI" reserved_columns) by (left; reflexivity).
  assert (Hres_k : In "Residence" reserved_columns)
    by (do 4 right; left; reflexivity).
  split; [|split].
  - intros Hbmi. rewrite (main_spec df (or_intror Hbmi)). fold w2.
    rewrite (proj2 (Hres "BMI" Hbmi_k) Hbmi). cbn [fst snd].
    split; [reflexivity|]. unfold written. rewrite Hfiles. reflexivity.
  - intros Hraw [bmi Hbmi] Hnone. rewrite (main_spec df (or_introl Hraw)). fold w2.
    destruct (columns (data w2) !! "BMI") as [bmi2|] eqn:E;
      [|apply (Hres "BMI" Hbmi_k) in E; congruence].
    rewrite (proj2 (Hres "Residence" Hres_k) Hnone). cbn [fst snd].
    split; [reflexivity|]. unfold written, with_dds, with_bmi. cbn [files].
    rewrite Hfiles. reflexivity.
  - intros Hraw [bmi Hbmi] [residence Hsome]. rewrite (main_spec df (or_introl Hraw)).
    fold w2.
    destruct (columns (data w2) !! "BMI") as [bmi2|] eqn:E;
      [|apply (Hres "BMI" Hbmi_k) in E; congruence].
    destruct (columns (data w2) !! "Residence") as [residence2|] eqn:E';
      [|apply (Hres "Residence" Hres_k) in E'; congruence].
    cbn [fst snd]. split; [reflexivity|].
    unfold written, with_dds, with_bmi. cbn [files data]. rewrite Hfiles.
    split; [reflexivity|].
    intros item Hitem Habsent. eexists. split; [reflexivity|]. cbn [columns].
    destruct (Hnum Hraw) as [_ Hskip].
    rewrite !lookup_insert_ne.
    + apply Hskip; assumption.
    + apply not_eq_sym, coded_names_reserved; [exact Hitem|].
      right; left; reflexivity.
    + apply not_eq_sym, coded_names_reserved; [exact Hitem|].
      right; right; left; reflexivity.
    + apply not_eq_sym, coded_names_reserved; [exact Hitem|].
      do 3 right; left; reflexivity.
Qed.

Lemma preparation_outcomes_witness :
  (fst (run_preparation (without "BMI" survey_table)) = Raise (KeyError "BMI") /\
   written (snd (run_preparation (without "BMI" survey_table))) = []) /\
  (fst (run_preparation (without "Residence" survey_table)) =
     Raise (KeyError "Residence") /\
   written (snd (run_preparation (without "Residence" survey_table))) =
     ["cleaned_data.csv"]) /\
  fst (run_preparation survey_table) = Ok tt.
Proof.
  split; [|split].
  - apply (proj1 (preparation_outcomes (without "BMI" survey_table))).
    vm_compute. reflexivity.
  - apply (proj1 (proj2 (preparation_outcomes (without "Residence" survey_table)))).
    + vm_compute. reflexivity.
    + vm_compute. eauto.
    + vm_compute. reflexivity.
  - apply (proj2 (proj2 (preparation_outcomes survey_table))).
    + vm_compute. reflexivity.
    + vm_compute. eauto.
    + vm_compute. eauto.
Defined.

(** A table without [Residence] is exported before the run aborts, and a
    table without a [Maize] column is prepared to the end. *)
Lemma export_precedes_residence_abort :
  columns (without "Residence" survey_table) !! "Residence" = None /\
  fst (run_preparation (without "Residence" survey_table)) =
    Raise (KeyError "Residence") /\
  written (snd (run_preparation (without "Residence" survey_table))) =
    ["cleaned_data.csv"] /\
  columns survey_table !! "Maize" = None /\
  fst (run_preparation survey_table) = Ok tt /\
  written (snd (run_preparation survey_table)) =
    ["cleaned_data.csv"; "data_preparation_summary.txt"].
Proof. vm_compute. repeat split. Qed.

(** The columns of the exported table for the two respondents. *)
Example survey_table_prepared :
  let column name :=
    match exported "cleaned_data.csv" (files (snd (run_preparation survey_table))) with
    | Some table => columns table !! name
    | None => None
    end in
  column "Residence" = Some [Str "Urban"; Str "Rural"] /\
  column "Rice_coded" = Some [Num 6; Num 3] /\
  column "Beans_coded" = Some [Num 1; NaN] /\
  column "Maize_coded" = None /\
  column "BMI_final" = Some [Num 17.9; NaN] /\
  column "BMI_category" = Some [Str "Underweight"; Str "Unknown"] /\
  column "DDS" = Some [Num 1; Num 1].
Proof. vm_compute. repeat split. Qed.

(** * Further properties of the scripts *)

(** ** Text standardisation, continued *)

Lemma upper_lower c : ascii_upper (ascii_lower c) = ascii_upper c.
Proof. each_ascii c. Qed.

Lemma lower_upper c : ascii_lower (ascii_upper c) = ascii_lower c.
Proof. each_ascii c. Qed.

Lemma title_from_lowercase b s : ascii_title_from b (lowercase s) = ascii_title_from b s.
Proof.
  revert b. induction s as [|c rest IH]; intros b; simpl; [reflexivity|].
  rewrite is_cased_lower, IH. destruct b; rewrite ?lower_lower, ?upper_lower;
    reflexivity.
Qed.

Lemma lowercase_title_from b s : lowercase (ascii_title_from b s) = lowercase s.
Proof.
  revert b. induction s as [|c rest IH]; intros b; simpl; [reflexivity|].
  rewrite IH. destruct b; rewrite ?lower_lower, ?lower_upper; reflexivity.
Qed.

Lemma title_eq_iff (s1 s2 : string) :
  ascii_title s1 = ascii_title s2 <-> lowercase s1 = lowercase s2.
Proof.
  unfold ascii_title. split; intros Heq.
  - rewrite <- (lowercase_title_from false s1), Heq. apply lowercase_title_from.
  - rewrite <- (title_from_lowercase false s1), Heq. apply title_from_lowercase.
Qed.

Lemma standardize_eq_iff `{Pandas} (s1 s2 : string) :
  standardize (Str s1) = standardize (Str s2) <->
  str_title (str_strip s1) = str_title (str_strip s2).
Proof.
  unfold standardize, replace. cbn [astype_str]. split.
  - destruct (String.eqb_spec (str_title (str_strip s1)) "Nan") as [E1|E1],
             (String.eqb_spec (str_title (str_strip s2)) "Nan") as [E2|E2];
      try discriminate.
    + congruence.
    + intros [= Heq]. exact Heq.
  - intros ->. reflexivity.
Qed.

(** X1.  Two texts of a listed column get the same standardised cell
    exactly when trimming and title-casing them gives the same text; for
    two texts made of ASCII characters, that is exactly when, once
    trimmed, they differ by the case of their letters alone. *)
Theorem standardize_merges_ascii_casings `{Pandas} (s1 s2 : string) :
  (standardize (Str s1) = standardize (Str s2) <->
   str_title (str_strip s1) = str_title (str_strip s2)) /\
  (is_ascii s1 = true -> is_ascii s2 = true ->
   (standardize (Str s1) = standardize (Str s2) <->
    lowercase (ascii_strip s1) = lowercase (ascii_strip s2))).
Proof.
  split; [apply standardize_eq_iff|]. intros Hs1 Hs2.
  rewrite standardize_eq_iff, (title_strip_ascii s1 Hs1), (title_strip_ascii s2 Hs2).
  apply title_eq_iff.
Qed.

Lemma standardize_merges_ascii_casings_witness :
  is_ascii " yes" = true /\ is_ascii "YES " = true /\
  lowercase (ascii_strip " yes") = lowercase (ascii_strip "YES ") /\
  standardize (Str " yes") = standardize (Str "YES ").
Proof.
  split; [reflexivity|]. split; [reflexivity|]. split; [reflexivity|].
  destruct (standardize_merges_ascii_casings " yes" "YES ") as [_ Hascii].
  exact (proj2 (Hascii eq_refl eq_refl) eq_refl).
Defined.

Example standardize_yes_variants :
  standardize (Str " yes") = standardize (Str "YES ") /\
  standardize (Str "yes") = Str "Yes" /\
  standardize (Str (no_break_space ++ "yes")) = Str "Yes".
Proof. vm_compute. repeat split. Qed.

Lemma listed_true (name : string) (names : list string) :
  listed name names = true <-> In name names.
Proof.
  unfold listed. rewrite existsb_exists. split.
  - intros (x & Hx & Heq). apply String.eqb_eq in Heq. subst x. exact Hx.
  - intros Hin. exists name. split; [exact Hin|apply String.eqb_refl].
Qed.

Lemma standardize_column_spec `{Pandas} (col : string) (w : world) :
  (do present <- has_column col;
   if present then
     do series <- getitem col;
     setitem col (map standardize series)
   else ret tt) w =
  (Ok tt,
   match columns (data w) !! col with
   | Some series =>
       mk_world (mk_dataframe (nrows (data w))
                   (<[col := map standardize series]> (columns (data w))))
                (files w)
   | None => w
   end).
Proof.
  unfold bind, has_column, getitem, setitem.
  destruct (columns (data w) !! col) as [series|] eqn:E; simpl; [|reflexivity].
  rewrite E. reflexivity.
Qed.

Lemma standardize_loop_lookup `{Pandas} (cols : list string) (w : world) (k : string) :
  distinct cols = true ->
  columns (data (snd (for_each cols (fun col =>
      do present <- has_column col;
      if present then
        do series <- getitem col;
        setitem col (map standardize series)
      else ret tt) w))) !! k =
    if listed k cols then map standardize <$> columns (data w) !! k
    else columns (data w) !! k.
Proof.
  revert w. induction cols as [|col rest IH]; intros w Hd; [reflexivity|].
  cbn [distinct] in Hd. apply andb_prop in Hd as [Hcol Hrest].
  apply negb_true_iff in Hcol.
  cbn [for_each]. unfold bind at 1. cbv beta.
  rewrite standardize_column_spec, (IH _ Hrest). cbn [listed existsb].
  fold (listed k rest).
  destruct (String.eqb_spec k col) as [->|Hne]; cbn [orb].
  - rewrite Hcol. destruct (columns (data w) !! col) as [series|] eqn:E.
    + cbn [data columns]. rewrite lookup_insert_eq. reflexivity.
    + rewrite E. reflexivity.
  - destruct (columns (data w) !! col) as [series|] eqn:E; [|reflexivity].
    cbn [data columns]. rewrite lookup_insert_ne by congruence. reflexivity.
Qed.

Lemma standardize_text_lookup `{Pandas} (w : world) (k : string) :
  columns (data (snd (standardize_text w))) !! k =
    (if listed k text_columns then map standardize <$> columns (data w) !! k
     else columns (data w) !! k).
Proof.
  unfold standardize_text. apply standardize_loop_lookup.
  vm_compute. reflexivity.
Qed.

(** X2.  The standardising loop never raises and writes no file; a listed
    column that is present is standardised cell by cell, once; every other
    column is left as it was, and no column appears or disappears. *)
Theorem standardize_text_columns `{Pandas} (w : world) (k : string) :
  fst (standardize_text w) = Ok tt /\
  files (snd (standardize_text w)) = files w /\
  nrows (data (snd (standardize_text w))) = nrows (data w) /\
  columns (data (snd (standardize_text w))) !! k =
    (if listed k text_columns then map standardize <$> columns (data w) !! k
     else columns (data w) !! k).
Proof.
  destruct (standardize_text_shape w) as (Hok & Hfiles & Hrows & _).
  repeat split; try assumption. apply standardize_text_lookup.
Qed.

(** ** The exported table *)

Lemma code_loop_present `{Pandas} (items : list string) (w : world)
    (item : string) (raw : list cell) :
  (forall col, In col items -> In col all_food_items) ->
  In item items ->
  columns (data w) !! item = Some raw ->
  columns (data (snd (for_each items code_item w))) !! coded_name item =
    Some (map code_cell raw).
Proof.
  revert w. induction items as [|col rest IH]; intros w Hall Hin Hraw;
    [destruct Hin|].
  assert (Hitem : In item all_food_items) by (apply Hall, Hin).
  assert (Hcol : In col all_food_items) by (apply Hall; left; reflexivity).
  assert (Hrest : forall c, In c rest -> In c all_food_items)
    by (intros c Hc; apply Hall; right; exact Hc).
  cbn [for_each]. unfold bind at 1. rewrite code_item_spec.
  destruct (String.eqb_spec col item) as [->|Hne].
  - rewrite Hraw.
    apply (code_loop_keeps
             (fun w' => columns (data w') !! item = Some raw /\
                        columns (data w') !! coded_name item =
                          Some (map code_cell raw)) rest).
    + intros col' raw' s Hcol' [Hs1 Hs2] Hpresent. unfold with_coded.
      cbn [data columns]. split.
      * rewrite lookup_insert_ne; [exact Hs1|].
        apply coded_names_fresh; [apply Hrest, Hcol'|].
        apply in_or_app. right. exact Hitem.
      * destruct (decide (coded_name col' = coded_name item)) as [Heq|Hneq].
        -- apply coded_name_inj_items in Heq; [|apply Hrest, Hcol'|exact Hitem].
           subst col'. rewrite lookup_insert_eq. congruence.
        -- rewrite lookup_insert_ne by exact Hneq. exact Hs2.
    + unfold with_coded. cbn [data columns]. split.
      * rewrite lookup_insert_ne by apply coded_name_ne. exact Hraw.
      * apply lookup_insert_eq.
  - destruct Hin as [Heq|Hin]; [congruence|].
    apply IH; [exact Hrest|exact Hin|].
    destruct (columns (data w) !! col) as [raw'|]; [|exact Hraw].
    unfold with_coded. cbn [data columns].
    rewrite lookup_insert_ne; [exact Hraw|].
    apply coded_names_fresh; [exact Hcol|]. apply in_or_app. right. exact Hitem.
Qed.

Lemma items_not_text (item : string) :
  In item all_food_items ->
  listed item text_columns = false /\
  listed (coded_name item) text_columns = false.
Proof.
  intros Hitem.
  assert (Hall : forallb (fun item =>
                    negb (listed item text_columns) &&
                    negb (listed (coded_name item) text_columns))
                         all_food_items = true) by (vm_compute; reflexivity).
  rewrite forallb_forall in Hall. specialize (Hall item Hitem).
  apply andb_prop in Hall as [H1 H2].
  split; apply negb_true_iff; assumption.
Qed.

(** The coded column of a catalog item once the two loops have run. *)
Lemma loops_coded `{Pandas} (df : dataframe) (item : string) :
  no_coded_columns df = true ->
  In item all_food_items ->
  columns (data (snd (code_frequencies (snd (standardize_text (mk_world df []))))))
    !! coded_name item = map code_cell <$> columns df !! item.
Proof.
  intros Hraw0 Hitem.
  destruct (columns df !! item) as [raw|] eqn:E.
  - unfold code_frequencies. apply code_loop_present; [tauto|exact Hitem|].
    rewrite standardize_text_lookup.
    rewrite (proj1 (items_not_text item Hitem)). exact E.
  - destruct (after_loops df) as (_ & _ & Hnum).
    apply (proj2 (Hnum Hraw0)); assumption.
Qed.

Lemma not_derived (k : string) :
  is_derived k = false ->
  k <> "BMI_final" /\ k <> "BMI_category" /\ k <> "DDS" /\
  forall item, In item all_food_items -> coded_name item <> k.
Proof.
  unfold is_derived. intros [Hnames Hcoded]%orb_false_elim.
  repeat split.
  - intros ->. discriminate.
  - intros ->. discriminate.
  - intros ->. discriminate.
  - intros item Hitem Heq.
    assert (Hin : listed k (map coded_name all_food_items) = true).
    { apply listed_true. rewrite <- Heq. apply in_map, Hitem. }
    congruence.
Qed.

(** Any other column once the two loops have run. *)
Lemma loops_other `{Pandas} (df : dataframe) (k : string) :
  (forall item, In item all_food_items -> coded_name item <> k) ->
  columns (data (snd (code_frequencies (snd (standardize_text (mk_world df []))))))
    !! k =
    (if listed k text_columns then map standardize <$> columns df !! k
     else columns df !! k).
Proof.
  intros Hk. rewrite (code_frequencies_other _ k Hk).
  apply standardize_text_lookup.
Qed.

Lemma loops_nrows `{Pandas} (df : dataframe) :
  nrows (data (snd (code_frequencies (snd (standardize_text (mk_world df []))))))
    = nrows df.
Proof.
  destruct (code_frequencies_frame (snd (standardize_text (mk_world df []))))
    as [_ ->].
  destruct (standardize_text_shape (mk_world df [])) as (_ & _ & -> & _).
  reflexivity.
Qed.

(** The run exports [prepared_table] as soon as it gets past step 3. *)
Lemma run_exports `{Pandas} (df : dataframe) (bmi : list cell) :
  no_coded_columns df = true ->
  columns df !! "BMI" = Some bmi ->
  exported "cleaned_data.csv" (files (snd (run_preparation df))) =
    Some (prepared_table df bmi).
Proof.
  intros Hraw0 Hbmi. rewrite (main_spec df (or_introl Hraw0)).
  destruct (after_loops df) as (Hfiles & _ & _).
  set (w2 := snd (code_frequencies (snd (standardize_text (mk_world df []))))) in *.
  assert (Hbmi2 : columns (data w2) !! "BMI" = Some bmi).
  { subst w2. rewrite loops_other.
    - change (listed "BMI" text_columns) with false. exact Hbmi.
    - intros item Hitem. apply coded_names_reserved; [exact Hitem|].
      left. reflexivity. }
  rewrite Hbmi2. unfold prepared_table. fold w2.
  destruct (columns (data w2) !! "Residence");
    cbn [snd files]; unfold with_dds, with_bmi; cbn [files data];
    rewrite Hfiles; reflexivity.
Qed.

Lemma prepared_lookup `{Pandas} (df : dataframe) (bmi : list cell) (k : string) :
  k <> "BMI_final" -> k <> "BMI_category" -> k <> "DDS" ->
  columns (prepared_table df bmi) !! k =
    columns (data (snd (code_frequencies (snd (standardize_text (mk_world df []))))))
      !! k.
Proof.
  intros H1 H2 H3. unfold prepared_table, with_dds, with_bmi. cbn [data columns].
  rewrite !lookup_insert_ne by congruence. reflexivity.
Qed.

Lemma prepared_nrows `{Pandas} (df : dataframe) (bmi : list cell) :
  nrows (prepared_table df bmi) = nrows df.
Proof.
  unfold prepared_table, with_dds, with_bmi. cbn [data nrows]. apply loops_nrows.
Qed.

Lemma items_not_derived (item : string) :
  In item all_food_items -> is_derived item = false.
Proof.
  intros Hitem.
  assert (Hall : forallb (fun item => negb (is_derived item)) all_food_items = true)
    by (vm_compute; reflexivity).
  rewrite forallb_forall in Hall. apply negb_true_iff, Hall, Hitem.
Qed.

Lemma prepared_other `{Pandas} (df : dataframe) (bmi : list cell) (k : string) :
  is_derived k = false ->
  columns (prepared_table df bmi) !! k =
    (if listed k text_columns then map standardize <$> columns df !! k
     else columns df !! k).
Proof.
  intros (H1 & H2 & H3 & Hcoded)%not_derived.
  rewrite prepared_lookup by assumption. apply loops_other, Hcoded.
Qed.

Lemma prepared_coded `{Pandas} (df : dataframe) (bmi : list cell) (item : string) :
  no_coded_columns df = true ->
  In item all_food_items ->
  columns (prepared_table df bmi) !! coded_name item =
    map code_cell <$> columns df !! item.
Proof.
  intros Hraw0 Hitem. rewrite prepared_lookup.
  - apply loops_coded; assumption.
  - apply coded_names_reserved; [exact Hitem|]. right; left; reflexivity.
  - apply coded_names_reserved; [exact Hitem|]. right; right; left; reflexivity.
  - apply coded_names_reserved; [exact Hitem|]. do 3 right; left; reflexivity.
Qed.

(** X3.  In the exported table every catalog item whose column was in the
    spreadsheet has a coded column holding, row by row, the coded value
    of its raw cell; an item without a column has none; the raw column
    itself is exported unchanged, and the table has as many rows as the
    spreadsheet. *)
Theorem exported_coded_columns `{Pandas} (df : dataframe) (bmi : list cell)
    (item : string) :
  no_coded_columns df = true ->
  columns df !! "BMI" = Some bmi ->
  In item all_food_items ->
  exists table,
    exported "cleaned_data.csv" (files (snd (run_preparation df))) = Some table /\
    nrows table = nrows df /\
    columns table !! coded_name item = map code_cell <$> columns df !! item /\
    columns table !! item = columns df !! item.
Proof.
  intros Hraw0 Hbmi Hitem. exists (prepared_table df bmi). repeat split.
  - apply run_exports; assumption.
  - apply prepared_nrows.
  - apply prepared_coded; assumption.
  - rewrite (prepared_other df bmi item (items_not_derived item Hitem)).
    rewrite (proj1 (items_not_text item Hitem)). reflexivity.
Qed.

(** X4.  The exported table keeps the raw [BMI] column and adds
    [BMI_final], the numeric reading of each raw cell, and [BMI_category],
    the category of that reading, row by row. *)
Theorem exported_bmi_columns `{Pandas} (df : dataframe) (bmi : list cell) :
  no_coded_columns df = true ->
  columns df !! "BMI" = Some bmi ->
  exists table,
    exported "cleaned_data.csv" (files (snd (run_preparation df))) = Some table /\
    columns table !! "BMI" = Some bmi /\
    columns table !! "BMI_final" = Some (map (fun c => Num (to_numeric_cell c)) bmi) /\
    columns table !! "BMI_category" = Some (map (fun c => Str (bmi_category_of c)) bmi).
Proof.
  intros Hraw0 Hbmi. exists (prepared_table df bmi). repeat split.
  - apply run_exports; assumption.
  - rewrite prepared_other by (vm_compute; reflexivity).
    change (listed "BMI" text_columns) with false. exact Hbmi.
  - unfold prepared_table, with_dds, with_bmi. cbn [data columns].
    rewrite lookup_insert_ne by discriminate.
    rewrite lookup_insert_ne by discriminate.
    rewrite lookup_insert_eq. unfold to_numeric. rewrite map_map. reflexivity.
  - unfold prepared_table, with_dds, with_bmi. cbn [data columns].
    rewrite lookup_insert_ne by discriminate.
    rewrite lookup_insert_eq. unfold to_numeric, bmi_category_of.
    rewrite map_map. reflexivity.
Qed.

(** X5.  Every column of the spreadsheet whose name is not the name of a
    column the script adds is exported: cell by cell standardised when it
    is one of the listed text columns, unchanged otherwise. *)
Theorem exported_original_columns `{Pandas} (df : dataframe) (bmi : list cell)
    (k : string) :
  no_coded_columns df = true ->
  columns df !! "BMI" = Some bmi ->
  is_derived k = false ->
  exists table,
    exported "cleaned_data.csv" (files (snd (run_preparation df))) = Some table /\
    columns table !! k =
      (if listed k text_columns then map standardize <$> columns df !! k
       else columns df !! k).
Proof.
  intros Hraw0 Hbmi Hk. exists (prepared_table df bmi). split.
  - apply run_exports; assumption.
  - apply prepared_other, Hk.
Qed.

Lemma run_final_data `{Pandas} (df : dataframe) (bmi : list cell) :
  no_coded_columns df = true ->
  columns df !! "BMI" = Some bmi ->
  data (snd (run_preparation df)) = prepared_table df bmi.
Proof.
  intros Hraw0 Hbmi. rewrite (main_spec df (or_introl Hraw0)).
  set (w2 := snd (code_frequencies (snd (standardize_text (mk_world df []))))) in *.
  assert (Hbmi2 : columns (data w2) !! "BMI" = Some bmi).
  { subst w2. rewrite loops_other.
    - change (listed "BMI" text_columns) with false. exact Hbmi.
    - intros item Hitem. apply coded_names_reserved; [exact Hitem|].
      left. reflexivity. }
  rewrite Hbmi2. unfold prepared_table. fold w2.
  destruct (columns (data w2) !! "Residence"); reflexivity.
Qed.

Lemma in_all_food_items (g : string * list string) (item : string) :
  In g food_groups -> In item (snd g) -> In item all_food_items.
Proof.
  intros Hg Hitem. unfold all_food_items. apply in_flat_map. exists g.
  split; [exact Hg|]. destruct g. exact Hitem.
Qed.

Lemma same_codes_catalog (r r' : row) :
  (forall item, In item all_food_items ->
     r' !! coded_name item = r !! coded_name item) ->
  same_codes r r' food_groups.
Proof.
  intros Hsame. unfold same_codes. apply List.Forall_forall. intros g Hg.
  apply List.Forall_forall. intros item Hitem.
  apply Hsame, (in_all_food_items g item Hg Hitem).
Qed.

(** X6.  The exported table has a [DDS] column with one cell per row,
    and the cell of a row is the score of that very row of the exported
    table: the number, between 0 and 10, of groups of the catalog having
    an item whose coded cell in that row is present and at least 3. *)
Theorem exported_dds_column `{Pandas} (df : dataframe) (bmi : list cell) :
  no_coded_columns df = true ->
  columns df !! "BMI" = Some bmi ->
  exists table scores,
    exported "cleaned_data.csv" (files (snd (run_preparation df))) = Some table /\
    columns table !! "DDS" = Some scores /\
    length scores = nrows df /\
    forall i, (i < nrows df)%nat ->
      scores !! i = Some (Num (of_int (dds_count (row_at table i) food_groups))) /\
      calculate_dds (row_at table i) food_groups =
        Ok (dds_count (row_at table i) food_groups) /\
      (0 <= dds_count (row_at table i) food_groups <= 10)%Z.
Proof.
  intros Hraw0 Hbmi.
  set (w2 := snd (code_frequencies (snd (standardize_text (mk_world df []))))).
  pose (w3 := with_bmi bmi w2).
  assert (Hnum : coded_numeric (data w3)).
  { apply with_bmi_numeric. destruct (after_loops df) as (_ & _ & Hnum).
    apply (proj1 (Hnum Hraw0)). }
  assert (Hsame : forall i, same_codes (row_at (data w3) i)
                                       (row_at (prepared_table df bmi) i) food_groups).
  { intros i. apply same_codes_catalog. intros item Hitem.
    unfold row_at. rewrite !lookup_omap. f_equal.
    unfold prepared_table, with_dds. fold w2. fold w3. cbn [data columns].
    rewrite lookup_insert_ne; [reflexivity|].
    apply not_eq_sym, coded_names_reserved; [exact Hitem|].
    do 3 right; left; reflexivity. }
  exists (prepared_table df bmi).
  exists (map (fun i => Num (of_int (dds_count (row_at (data w3) i) food_groups)))
              (seq 0 (nrows (data w3)))).
  assert (Hrows : nrows (data w3) = nrows df) by apply loops_nrows.
  repeat split.
  - apply run_exports; assumption.
  - unfold prepared_table, with_dds. fold w2. fold w3. cbn [data columns].
    apply lookup_insert_eq.
  - rewrite length_map, length_seq. exact Hrows.
  - rewrite list_lookup_fmap, lookup_seq_lt by lia.
    cbn [fmap option_fmap option_map Nat.add].
    rewrite (dds_count_same_codes _ _ _ (Hsame i)). reflexivity.
  - unfold calculate_dds. rewrite calculate_dds_spec; [reflexivity|].
    rewrite (numeric_codes_same_codes _ _ _ (Hsame i)).
    apply coded_numeric_rows, Hnum.
  - apply dds_count_range.
  - apply (dds_count_range (row_at (prepared_table df bmi) i) food_groups).
Qed.

(** ** Labels compared after standardisation *)

Lemma eq_label_standardize `{Pandas} (label : string) (c : cell) :
  starts_lower label = true -> eq_label label (standardize c) = false.
Proof.
  intros Hlabel. unfold standardize, replace.
  destruct (String.eqb (str_title (str_strip (astype_str c))) "Nan"); [reflexivity|].
  unfold eq_label. apply String.eqb_neq. intros Heq.
  rewrite <- Heq, str_title_initial in Hlabel. discriminate.
Qed.

Lemma count_equal_standardized `{Pandas} (label : string) (series : list cell) :
  starts_lower label = true -> count_equal label (map standardize series) = 0%Z.
Proof.
  intros Hlabel. unfold count_equal.
  induction series as [|c rest IH]; [reflexivity|].
  cbn [map List.filter]. rewrite (eq_label_standardize label c Hlabel). exact IH.
Qed.

(** X7.  The [Urban] and [Rural] entries of the summary are 0 on every
    table: the script compares the [Residence] cells with the lower-case
    labels after it has title-cased them. *)
Theorem summary_residence_counts `{Pandas} (df : dataframe)
    (bmi residence : list cell) :
  no_coded_columns df = true ->
  columns df !! "BMI" = Some bmi ->
  columns df !! "Residence" = Some residence ->
  fst (run_preparation df) = Ok tt /\
  fst (summary_residence (snd (run_preparation df))) = Ok (0, 0)%Z.
Proof.
  intros Hraw0 Hbmi Hres. split.
  - rewrite (main_spec df (or_introl Hraw0)).
    rewrite !loops_other
      by (intros item Hitem; apply coded_names_reserved; [exact Hitem|];
          first [left; reflexivity | do 4 right; left; reflexivity]).
    change (listed "BMI" text_columns) with false.
    change (listed "Residence" text_columns) with true.
    rewrite Hbmi, Hres. reflexivity.
  - assert (Hlook : columns (data (snd (run_preparation df))) !! "Residence" =
                    Some (map standardize residence)).
    { rewrite (run_final_data df bmi Hraw0 Hbmi).
      rewrite prepared_other by (vm_compute; reflexivity).
      change (listed "Residence" text_columns) with true. rewrite Hres.
      reflexivity. }
    unfold summary_residence, bind, getitem. rewrite Hlook. cbv beta iota.
    rewrite Hlook. unfold ret. cbn [fst].
    rewrite !count_equal_standardized by reflexivity. reflexivity.
Qed.

(** ** Order of doubles *)

Ltac compare_cases :=
  repeat match goal with
         | H : context [Pos.compare_cont Eq ?p ?q] |- _ =>
             rewrite (Pos.compare_cont_spec p q Eq) in H; cbn [Pos.switch_Eq] in H
         | |- context [Pos.compare_cont Eq ?p ?q] =>
             rewrite (Pos.compare_cont_spec p q Eq); cbn [Pos.switch_Eq]
         end;
  repeat match goal with
         | H : context [(?x ?= ?y)%Z] |- _ => destruct (Z.compare_spec x y)
         | |- context [(?x ?= ?y)%Z] => destruct (Z.compare_spec x y)
         | H : context [(?p ?= ?q)%positive] |- _ => destruct (Pos.compare_spec p q)
         | |- context [(?p ?= ?q)%positive] => destruct (Pos.compare_spec p q)
         end;
  cbn [CompOpp] in *; subst; try discriminate; try reflexivity; try lia.

Lemma SFltb_leb_trans (a b c : spec_float) :
  SFltb a b = true -> SFleb b c = true -> SFltb a c = true.
Proof.
  unfold SFltb, SFleb.
  destruct a as [[]|[]| |[] ma ea], b as [[]|[]| |[] mb eb],
           c as [[]|[]| |[] mc ec]; cbn [SFcompare];
    try discriminate; try reflexivity; intros Hab Hbc; compare_cases.
Qed.

Lemma SFleb_trans (a b c : spec_float) :
  SFleb a b = true -> SFleb b c = true -> SFleb a c = true.
Proof.
  unfold SFleb.
  destruct a as [[]|[]| |[] ma ea], b as [[]|[]| |[] mb eb],
           c as [[]|[]| |[] mc ec]; cbn [SFcompare];
    try discriminate; try reflexivity; intros Hab Hbc; compare_cases.
Qed.

Lemma ltb_leb_trans (x y z : float) :
  (x <? y)%float = true -> (y <=? z)%float = true -> (x <? z)%float = true.
Proof. rewrite !ltb_spec, leb_spec. apply SFltb_leb_trans. Qed.

Lemma leb_trans (x y z : float) :
  (x <=? y)%float = true -> (y <=? z)%float = true -> (x <=? z)%float = true.
Proof. rewrite !leb_spec. apply SFleb_trans. Qed.

(** ** The score, continued *)

Lemma filter_none {A} (f : A -> bool) (l : list A) :
  length (List.filter f l) = 0%nat <-> forallb (fun x => negb (f x)) l = true.
Proof.
  induction l as [|x rest IH]; simpl; [tauto|].
  destruct (f x); simpl; [split; discriminate|exact IH].
Qed.

Lemma filter_all {A} (f : A -> bool) (l : list A) :
  length (List.filter f l) = length l <-> forallb f l = true.
Proof.
  induction l as [|x rest IH]; simpl; [tauto|].
  destruct (f x); simpl.
  - rewrite <- IH. split; lia.
  - pose proof (List.filter_length_le f rest). split; [lia|discriminate].
Qed.

(** X8.  On a row whose coded cells are numbers, the score is 0 exactly
    when no group has an item with a coded value of 3 or more, and it is
    the number of groups exactly when every group has one. *)
Theorem calculate_dds_extremes (r : row) groups :
  numeric_codes r groups = true ->
  (calculate_dds r groups = Ok 0%Z <->
   forallb (fun g => negb (group_consumed r (snd g))) groups = true) /\
  (calculate_dds r groups = Ok (Z.of_nat (length groups)) <->
   forallb (fun g => group_consumed r (snd g)) groups = true).
Proof.
  intros Hnum. unfold calculate_dds. rewrite (calculate_dds_spec r groups Hnum).
  cbn [fst]. unfold dds_count. split.
  - rewrite <- filter_none. split; [intros [= Hz]; lia|intros ->; reflexivity].
  - rewrite <- filter_all. split; [intros [= Hz]; lia|intros ->; reflexivity].
Qed.

Lemma calculate_dds_extremes_witness :
  calculate_dds rice_daily [("Cereals", ["Rice"; "Maize"])] = Ok 1%Z /\
  calculate_dds rice_daily [("Legumes", ["Beans"])] = Ok 0%Z.
Proof.
  split.
  - apply (proj2 (calculate_dds_extremes rice_daily [("Cereals", ["Rice"; "Maize"])]
                    ltac:(vm_compute; reflexivity))).
    vm_compute. reflexivity.
  - apply (proj1 (calculate_dds_extremes rice_daily [("Legumes", ["Beans"])]
                    ltac:(vm_compute; reflexivity))).
    vm_compute. reflexivity.
Defined.

Lemma item_consumed_at_least (r r' : row) (item : string) :
  item_at_least r r' item = true ->
  item_consumed r item = true -> item_consumed r' item = true.
Proof.
  unfold item_at_least, item_consumed.
  destruct (r !! coded_name item) as [[s|x]|]; try discriminate.
  intros Hle [Hx H3]%andb_prop. apply negb_true_iff in Hx.
  rewrite Hx in Hle. cbn [orb] in Hle.
  destruct (r' !! coded_name item) as [[s|y]|]; try discriminate.
  rewrite (is_nan_false_of_leb y x Hle), (leb_trans 3 x y H3 Hle). reflexivity.
Qed.

Lemma group_consumed_at_least (r r' : row) (items : list string) :
  forallb (item_at_least r r') items = true ->
  group_consumed r items = true -> group_consumed r' items = true.
Proof.
  unfold group_consumed. induction items as [|item rest IH]; simpl;
    [discriminate|].
  intros [Hitem Hrest]%andb_prop [Hc|Hc]%orb_prop.
  - rewrite (item_consumed_at_least r r' item Hitem Hc). reflexivity.
  - rewrite (IH Hrest Hc). apply orb_true_r.
Qed.

Lemma dds_count_at_least (r r' : row) groups :
  eats_at_least r r' groups = true ->
  (dds_count r groups <= dds_count r' groups)%Z.
Proof.
  unfold eats_at_least, dds_count. intros Hle. apply inj_le.
  induction groups as [|g rest IH]; simpl; [lia|].
  simpl in Hle. apply andb_prop in Hle as [Hg Hrest]. specialize (IH Hrest).
  destruct (group_consumed r (snd g)) eqn:Hc.
  - rewrite (group_consumed_at_least r r' (snd g) Hg Hc). simpl. lia.
  - destruct (group_consumed r' (snd g)); simpl; lia.
Qed.

(** X9.  Eating more never lowers the score: when a row reports every
    item of the catalog at least as often as another row does, its score
    is at least the score of the other. *)
Theorem calculate_dds_monotone (r r' : row) groups :
  numeric_codes r groups = true ->
  numeric_codes r' groups = true ->
  eats_at_least r r' groups = true ->
  exists score score',
    calculate_dds r groups = Ok score /\
    calculate_dds r' groups = Ok score' /\
    (score <= score')%Z.
Proof.
  intros Hnum Hnum' Hle.
  exists (dds_count r groups), (dds_count r' groups). unfold calculate_dds.
  rewrite (calculate_dds_spec r groups Hnum), (calculate_dds_spec r' groups Hnum').
  repeat split. apply dds_count_at_least, Hle.
Qed.

Lemma calculate_dds_monotone_witness :
  exists score score',
    calculate_dds rice_daily food_groups = Ok score /\
    calculate_dds rice_and_beans food_groups = Ok score' /\
    (score <= score')%Z.
Proof.
  apply calculate_dds_monotone; vm_compute; reflexivity.
Defined.

(** X10.  An answer spelled as the table lists it counts towards the
    score of its row exactly when its code is 3 or more, that is when the
    answer is once a week or more often; an answer the table does not
    list and the parser rejects does not count. *)
Theorem listed_answer_counts `{Pandas} (r : row) (item s : string) (k : Z) :
  frequency_mapping !! s = Some k ->
  r !! coded_name item = Some (code_cell (Str s)) ->
  item_consumed r item = (3 <=? k)%Z /\
  (item_consumed r item = true <->
   In (lowercase s) ["1x"; "2-3x"; "4-6x"; "daily"]) /\
  (forall r' s',
     frequency_mapping !! s' = None -> str_to_float s' = None ->
     r' !! coded_name item = Some (code_cell (Str s')) ->
     item_consumed r' item = false).
Proof.
  intros Hs Hr.
  assert (Hcount : item_consumed r item = (3 <=? k)%Z).
  { unfold item_consumed. rewrite Hr, (code_cell_listed s k Hs).
    clear Hr. table_cases Hs; vm_compute; reflexivity. }
  repeat split.
  - exact Hcount.
  - rewrite Hcount. clear Hr Hcount.
    table_cases Hs; vm_compute; intros Hc; try discriminate; auto 6.
  - rewrite Hcount. clear Hr Hcount.
    table_cases Hs; vm_compute; try reflexivity;
      intros Hin; repeat (destruct Hin as [Hin|Hin]; try discriminate);
      destruct Hin.
  - intros r' s' Hs' Hparse Hr'. unfold item_consumed. rewrite Hr'.
    rewrite code_cell_unlisted by (unfold in_table; rewrite Hs'; reflexivity).
    unfold to_numeric_cell. rewrite Hparse. reflexivity.
Qed.

Lemma listed_answer_counts_witness :
  item_consumed (<["Rice_coded" := code_cell (Str "1X")]> ∅) "Rice" = true.
Proof.
  pose proof (listed_answer_counts (<["Rice_coded" := code_cell (Str "1X")]> ∅)
                "Rice" "1X" 3
                ltac:(vm_compute; reflexivity) ltac:(vm_compute; reflexivity))
    as [Hcount _].
  exact Hcount.
Defined.

(** ** The later scripts *)

(** X11.  [advanced_analysis.py] codes [Residence] by comparing it with
    the lower-case label [urban]: on a cell standardised by the
    preparation stage the code is always 0.  Meal skipping is compared
    with [Yes] and is coded 1 exactly for the answers that trimming and
    title-casing turn into [Yes]; among the answers made of ASCII
    characters these are the ones that are [yes] up to case and
    surrounding white space. *)
Theorem regression_codes_of_standardized `{Pandas} (c : cell) (s : string) :
  advanced_analysis_regression.Residence_coded (standardize c) = 0%Z /\
  (advanced_analysis_regression.Meal_skipping_coded (standardize (Str s)) = 1%Z <->
   str_title (str_strip s) = "Yes") /\
  (is_ascii s = true ->
   (advanced_analysis_regression.Meal_skipping_coded (standardize (Str s)) = 1%Z <->
    lowercase (ascii_strip s) = "yes")).
Proof.
  assert (Hmeal :
    advanced_analysis_regression.Meal_skipping_coded (standardize (Str s)) = 1%Z <->
    str_title (str_strip s) = "Yes").
  { unfold advanced_analysis_regression.Meal_skipping_coded, indicator.
    unfold standardize, replace. cbn [astype_str].
    destruct (String.eqb_spec (str_title (str_strip s)) "Nan") as [E|E].
    - rewrite E. cbn [eq_label]. split; discriminate.
    - cbn [eq_label].
      destruct (String.eqb_spec (str_title (str_strip s)) "Yes") as [E'|E'];
        split; congruence. }
  split; [|split; [exact Hmeal|]].
  - unfold advanced_analysis_regression.Residence_coded, indicator.
    rewrite eq_label_standardize by reflexivity. reflexivity.
  - intros Hs. rewrite Hmeal, (title_strip_ascii s Hs).
    change "yes" with (lowercase "Yes"). rewrite <- title_eq_iff. reflexivity.
Qed.

Lemma regression_codes_of_standardized_witness :
  is_ascii " YES" = true /\ lowercase (ascii_strip " YES") = "yes" /\
  advanced_analysis_regression.Residence_coded (standardize (Str "urban")) = 0%Z /\
  advanced_analysis_regression.Meal_skipping_coded (standardize (Str " YES")) = 1%Z.
Proof.
  split; [reflexivity|]. split; [reflexivity|].
  destruct (regression_codes_of_standardized (Str "urban") " YES")
    as (Hresidence & _ & Hascii).
  split; [exact Hresidence|exact (proj2 (Hascii eq_refl) eq_refl)].
Defined.

Example meal_skipping_no_break_space :
  standardize (Str (no_break_space ++ "yes")) = Str "Yes" /\
  advanced_analysis_regression.Meal_skipping_coded
    (standardize (Str (no_break_space ++ "yes"))) = 1%Z.
Proof. vm_compute. repeat split. Qed.

(** X12.  The outcome of the regression, [Undernutrition], is 1 for a
    row exactly when its BMI is a number below 18.5; a row whose BMI is
    missing is kept with outcome 0. *)
Theorem undernutrition_of_bmi (x : float) :
  advanced_analysis_regression.Undernutrition (Str (categorize_bmi x)) =
    (if (x <? 18.5)%float then 1 else 0)%Z /\
  advanced_analysis_regression.Undernutrition (Str (categorize_bmi nan)) = 0%Z.
Proof.
  split; [|reflexivity].
  unfold advanced_analysis_regression.Undernutrition, indicator, categorize_bmi.
  destruct (is_nan x) eqn:Hnan.
  - rewrite (ltb_nan_l x 18.5 Hnan). reflexivity.
  - destruct (x <? 18.5)%float; [reflexivity|].
    destruct (x <? 25)%float; [reflexivity|].
    destruct (x <? 30)%float; reflexivity.
Qed.

Lemma p_value_levels (p : float) :
  ((p <? 0.001)%float = true -> (p <? 0.01)%float = true) /\
  ((p <? 0.01)%float = true -> (p <? 0.05)%float = true).
Proof.
  split; intros Hp; apply (ltb_leb_trans _ _ _ Hp); vm_compute; reflexivity.
Qed.

(** X13.  The star rating and the wording that the dietary-patterns
    script reports for a p-value never disagree: the wording is
    [Significant difference] exactly when the rating is not [ns].  The
    ratings are nested, three stars below 0.001, two from 0.001 to below
    0.01, one from 0.01 to below 0.05; a p-value that is NaN is rated
    [ns]. *)
Theorem significance_agrees_with_wording (p : float) :
  (analysis_dietary_patterns_tests.interpretation p = "Significant difference" <->
   analysis_dietary_patterns_tests.significance p <> "ns") /\
  (analysis_dietary_patterns_tests.significance p = "***" <->
   (p <? 0.001)%float = true) /\
  (analysis_dietary_patterns_tests.significance p = "**" <->
   (0.001 <=? p)%float && (p <? 0.01)%float = true) /\
  (analysis_dietary_patterns_tests.significance p = "*" <->
   (0.01 <=? p)%float && (p <? 0.05)%float = true) /\
  (analysis_dietary_patterns_tests.significance p = "ns" <->
   (p <? 0.05)%float = false) /\
  analysis_dietary_patterns_tests.significance nan = "ns".
Proof.
  destruct (p_value_levels p) as [H1 H2].
  unfold analysis_dietary_patterns_tests.interpretation,
    analysis_dietary_patterns_tests.significance.
  destruct (is_nan p) eqn:Hnan.
  - rewrite !(ltb_nan_l p) by assumption. rewrite !(leb_nan_r p) by assumption.
    repeat split; try discriminate; try reflexivity; congruence.
  - rewrite !(leb_negb_ltb p) by (assumption || reflexivity).
    destruct (p <? 0.001)%float eqn:E1.
    + rewrite (H1 eq_refl), (H2 (H1 eq_refl)). cbn [negb andb].
      repeat split; try discriminate; try reflexivity; congruence.
    + destruct (p <? 0.01)%float eqn:E2.
      * rewrite (H2 eq_refl). cbn [negb andb].
        repeat split; try discriminate; try reflexivity; congruence.
      * destruct (p <? 0.05)%float eqn:E3; cbn [negb andb];
          repeat split; try discriminate; try reflexivity; congruence.
Qed.

(** ** The master script *)

Lemma run_each_issued `{run_full_analysis.Shell}
    (todo results : list (string * string)) (issued : list string) :
  (exists final, fst (run_full_analysis.run_each todo results issued) = Ok final) /\
  snd (run_full_analysis.run_each todo results issued) =
    (issued ++ run_full_analysis.commands todo)%list.
Proof.
  unfold run_full_analysis.commands. revert results issued.
  induction todo as [|[script_name description] rest IH]; intros results issued.
  - cbn. rewrite app_nil_r. eauto.
  - cbn [run_full_analysis.run_each List.filter fst].
    destruct (run_full_analysis.path_exists script_name) eqn:E; [|apply IH].
    unfold bind, run_full_analysis.run_script. cbn [map fst].
    set (later := map _ (List.filter _ rest)) in *.
    replace (issued ++ String.append "python " script_name :: later)%list
      with ((issued ++ [String.append "python " script_name]) ++ later)%list
      by (rewrite <- app_assoc; reflexivity).
    destruct (run_full_analysis.os_system issued _); apply IH.
Qed.

(** X14.  The master script does not stop at a failure: whatever the
    exit codes, and also when a call raises, it issues one command for
    every script that exists, in the order of its list, and ends
    normally. *)
Theorem main_runs_every_script `{run_full_analysis.Shell} (issued : list string) :
  (exists results flag, fst (run_full_analysis.main issued) = Ok (results, flag)) /\
  snd (run_full_analysis.main issued) =
    (issued ++ run_full_analysis.commands run_full_analysis.scripts)%list.
Proof.
  unfold run_full_analysis.main, bind.
  destruct (run_each_issued run_full_analysis.scripts [] issued)
    as [[final Hok] Hissued].
  destruct (run_full_analysis.run_each run_full_analysis.scripts [] issued)
    as [[results|e] issued'] eqn:E; cbn [fst snd] in *; [|discriminate].
  split; [unfold ret; eauto|exact Hissued].
Qed.

Example failing_preparation_still_runs_the_rest :
  let shell := run_full_analysis.failing_preparation in
  snd (run_full_analysis.main []) =
    ["python data_preparation.py"; "python analysis_sociodemographic.py";
     "python analysis_anthropometry.py"; "python analysis_dietary_patterns.py";
     "python analysis_diet_factors.py"; "python analysis_dietary_habits.py";
     "python advanced_analysis.py"] /\
  exists results, fst (run_full_analysis.main []) = Ok (results, false).
Proof. vm_compute. split; [reflexivity|eauto]. Qed.

Lemma dict_set_fresh (key value : string) (d : list (string * string)) :
  listed key (map fst d) = false ->
  run_full_analysis.dict_set key value d = (d ++ [(key, value)])%list.
Proof.
  induction d as [|[k v] rest IH]; cbn [run_full_analysis.dict_set map fst listed existsb];
    [reflexivity|].
  intros [Hk Hrest]%orb_false_elim. rewrite String.eqb_sym, Hk.
  rewrite IH by exact Hrest. reflexivity.
Qed.

Lemma listed_app (k : string) (l1 l2 : list string) :
  listed k (l1 ++ l2) = listed k l1 || listed k l2.
Proof. unfold listed. apply existsb_app. Qed.

Lemma run_each_results `{run_full_analysis.Shell}
    (todo results : list (string * string)) (issued : list string) :
  distinct (map snd todo) = true ->
  forallb (fun description => negb (listed description (map fst results)))
          (map snd todo) = true ->
  fst (run_full_analysis.run_each todo results issued) =
    Ok (results ++ run_full_analysis.statuses todo issued)%list.
Proof.
  revert results issued.
  induction todo as [|[script_name description] rest IH];
    intros results issued Hd Hfresh.
  - cbn. rewrite app_nil_r. reflexivity.
  - cbn [map snd distinct forallb] in Hd, Hfresh.
    apply andb_prop in Hd as [Hdesc Hd]. apply negb_true_iff in Hdesc.
    apply andb_prop in Hfresh as [Hnew Hfresh]. apply negb_true_iff in Hnew.
    assert (Hnext : forall status,
      forallb (fun d => negb (listed d (map fst (results ++ [(description, status)]))))
              (map snd rest) = true).
    { intros status. apply forallb_forall. intros d Hin.
      rewrite forallb_forall in Hfresh. specialize (Hfresh d Hin).
      rewrite map_app, listed_app. apply negb_true_iff in Hfresh.
      rewrite Hfresh. cbn [map fst listed existsb orb].
      destruct (String.eqb_spec d description) as [->|_]; [|reflexivity].
      apply listed_true in Hin. congruence. }
    cbn [run_full_analysis.run_each run_full_analysis.statuses].
    destruct (run_full_analysis.path_exists script_name).
    + unfold bind, run_full_analysis.run_script.
      destruct (run_full_analysis.os_system issued _) as [exit_code|e].
      * rewrite dict_set_fresh by exact Hnew. rewrite IH by (apply Hd || apply Hnext).
        rewrite <- app_assoc. reflexivity.
      * rewrite dict_set_fresh by exact Hnew. rewrite IH by (apply Hd || apply Hnext).
        rewrite <- app_assoc. reflexivity.
    + rewrite dict_set_fresh by exact Hnew. rewrite IH by (apply Hd || apply Hnext).
      rewrite <- app_assoc. reflexivity.
Qed.

Lemma statuses_keys `{run_full_analysis.Shell}
    (todo : list (string * string)) (issued : list string) :
  map fst (run_full_analysis.statuses todo issued) = map snd todo.
Proof.
  revert issued. induction todo as [|[script_name description] rest IH];
    intros issued; [reflexivity|].
  cbn [run_full_analysis.statuses].
  destruct (run_full_analysis.path_exists script_name); cbn [map fst snd];
    rewrite IH; reflexivity.
Qed.

Lemma statuses_success `{run_full_analysis.Shell}
    (todo : list (string * string)) (issued : list string) :
  run_full_analysis.all_success (run_full_analysis.statuses todo issued) = true ->
  forallb (fun script => run_full_analysis.path_exists (fst script)) todo = true.
Proof.
  revert issued. induction todo as [|[script_name description] rest IH];
    intros issued; [reflexivity|].
  cbn [run_full_analysis.statuses forallb fst].
  destruct (run_full_analysis.path_exists script_name).
  - unfold run_full_analysis.all_success. cbn [forallb].
    intros [_ Hrest]%andb_prop. apply (IH _ Hrest).
  - unfold run_full_analysis.all_success. cbn [forallb snd].
    change (String.eqb "Not Found" "Success") with false. discriminate.
Qed.

Lemma statuses_all_zero `{run_full_analysis.Shell}
    (todo : list (string * string)) (issued : list string) :
  (forall history command, run_full_analysis.os_system history command = Ok 0%Z) ->
  forallb (fun script => run_full_analysis.path_exists (fst script)) todo = true ->
  run_full_analysis.all_success (run_full_analysis.statuses todo issued) = true.
Proof.
  intros Hzero. revert issued.
  induction todo as [|[script_name description] rest IH]; intros issued;
    [reflexivity|].
  cbn [forallb fst run_full_analysis.statuses]. intros [-> Hrest]%andb_prop.
  rewrite Hzero. unfold run_full_analysis.all_success. cbn [forallb snd].
  change (0 =? 0)%Z with true. change (String.eqb "Success" "Success") with true.
  apply (IH _ Hrest).
Qed.

(** X15.  The master script records one status per script, under its
    description and in the order of the list.  It announces that all
    analyses completed only if every script of the list exists and the
    preparation script, run first, exited with code 0; and it does
    announce it when every script exists and every command exits with
    code 0. *)
Theorem main_reports `{run_full_analysis.Shell} (issued : list string) :
  exists results flag,
    fst (run_full_analysis.main issued) = Ok (results, flag) /\
    flag = run_full_analysis.all_success results /\
    map fst results = map snd run_full_analysis.scripts /\
    (flag = true ->
       forallb (fun script => run_full_analysis.path_exists (fst script))
               run_full_analysis.scripts = true /\
       run_full_analysis.os_system issued "python data_preparation.py" = Ok 0%Z) /\
    ((forall history command,
        run_full_analysis.os_system history command = Ok 0%Z) ->
     forallb (fun script => run_full_analysis.path_exists (fst script))
             run_full_analysis.scripts = true ->
     flag = true).
Proof.
  pose proof (run_each_results run_full_analysis.scripts [] issued
                ltac:(vm_compute; reflexivity) ltac:(vm_compute; reflexivity))
    as Hres.
  cbn [app] in Hres.
  exists (run_full_analysis.statuses run_full_analysis.scripts issued).
  exists (run_full_analysis.all_success
            (run_full_analysis.statuses run_full_analysis.scripts issued)).
  split; [|split; [|split; [|split]]].
  - unfold run_full_analysis.main, bind.
    destruct (run_full_analysis.run_each run_full_analysis.scripts [] issued)
      as [[results|e] issued']; cbn [fst] in Hres; [|discriminate].
    injection Hres as ->. reflexivity.
  - reflexivity.
  - apply statuses_keys.
  - intros Hflag. pose proof (statuses_success _ issued Hflag) as Hall.
    split; [exact Hall|].
    unfold run_full_analysis.scripts in Hflag, Hall.
    cbn [forallb fst] in Hall. apply andb_prop in Hall as [Hfirst _].
    cbn [run_full_analysis.statuses] in Hflag. rewrite Hfirst in Hflag.
    unfold run_full_analysis.all_success in Hflag. cbn [forallb snd] in Hflag.
    apply andb_prop in Hflag as [Hstatus _].
    change (String.append "python " "data_preparation.py")
      with "python data_preparation.py" in Hstatus.
    destruct (run_full_analysis.os_system issued "python data_preparation.py")
      as [exit_code|e]; [|discriminate].
    destruct (exit_code =? 0)%Z eqn:Hzero; [|discriminate].
    apply Z.eqb_eq in Hzero. subst exit_code. reflexivity.
  - intros Hzero Hexists. apply statuses_all_zero; assumption.
Qed.

(** ** More on the categoriser and on the errors of the scorer *)

Lemma SFleb_ltb_trans (a b c : spec_float) :
  SFleb a b = true -> SFltb b c = true -> SFltb a c = true.
Proof.
  unfold SFltb, SFleb.
  destruct a as [[]|[]| |[] ma ea], b as [[]|[]| |[] mb eb],
           c as [[]|[]| |[] mc ec]; cbn [SFcompare];
    try discriminate; try reflexivity; intros Hab Hbc; compare_cases.
Qed.

Lemma leb_ltb_trans (x y z : float) :
  (x <=? y)%float = true -> (y <? z)%float = true -> (x <? z)%float = true.
Proof. rewrite leb_spec, !ltb_spec. apply SFleb_ltb_trans. Qed.

(** X16.  The category never goes down when the BMI goes up: for two
    numbers [x <= y] the category of [x] comes no later than the category
    of [y] in the order Underweight, Normal, Overweight, Obese. *)
Theorem categorize_bmi_monotone (x y : float) :
  (x <=? y)%float = true ->
  (bmi_rank (categorize_bmi x) <= bmi_rank (categorize_bmi y))%Z.
Proof.
  intros Hle.
  assert (Hy : is_nan y = false) by apply (is_nan_false_of_leb y x Hle).
  assert (Hx : is_nan x = false).
  { destruct (is_nan x) eqn:E; [|reflexivity].
    apply is_nan_spec in E. rewrite leb_spec, E in Hle. discriminate. }
  rewrite (categorize_bmi_not_nan x Hx), (categorize_bmi_not_nan y Hy).
  pose proof (leb_ltb_trans x y 18.5 Hle) as H18.
  pose proof (leb_ltb_trans x y 25 Hle) as H25.
  pose proof (leb_ltb_trans x y 30 Hle) as H30.
  destruct (y <? 18.5)%float.
  - rewrite (H18 eq_refl). reflexivity.
  - destruct (y <? 25)%float.
    + rewrite (H25 eq_refl). destruct (x <? 18.5)%float; vm_compute; discriminate.
    + destruct (y <? 30)%float.
      * rewrite (H30 eq_refl).
        destruct (x <? 18.5)%float, (x <? 25)%float; vm_compute; discriminate.
      * destruct (x <? 18.5)%float, (x <? 25)%float, (x <? 30)%float;
          vm_compute; discriminate.
Qed.

Lemma categorize_bmi_monotone_witness :
  (bmi_rank (categorize_bmi 24.9) <= bmi_rank (categorize_bmi 25))%Z.
Proof.
  apply categorize_bmi_monotone. vm_compute. reflexivity.
Defined.

Lemma any_item_consumed_raises (r : row) (items : list string) (e : exn) :
  fst (any_item_consumed items r) = Raise e ->
  e = TypeError /\ forallb (numeric_item r) items = false.
Proof.
  induction items as [|item rest IH]; cbn [any_item_consumed]; [discriminate|].
  unfold bind, in_index, row_get, numeric_item. cbn [forallb].
  destruct (r !! coded_name item) as [[s|x]|] eqn:E; cbn [fst snd].
  - rewrite bool_decide_true by eauto. cbv beta iota. rewrite E.
    unfold notna. cbn [isna negb]. rewrite E. unfold raise.
    cbn [ge_3 fst]. intros [= <-]. split; reflexivity.
  - rewrite bool_decide_true by eauto. cbv beta iota. rewrite E. cbv beta iota.
    unfold notna. cbn [isna]. destruct (is_nan x); cbn [negb].
    + intros Hr. destruct (IH Hr) as [-> Hnum]. split; [reflexivity|exact Hnum].
    + rewrite E. cbn [ge_3]. unfold ret at 1.
      destruct (3 <=? x)%float; [discriminate|].
      intros Hr. destruct (IH Hr) as [-> Hnum]. split; [reflexivity|exact Hnum].
  - rewrite bool_decide_false by (intros [? ?]; discriminate).
    intros Hr. destruct (IH Hr) as [-> Hnum]. split; [reflexivity|exact Hnum].
Qed.

Lemma count_groups_raises (r : row) groups (score : Z) (e : exn) :
  fst (count_groups groups score r) = Raise e ->
  e = TypeError /\ numeric_codes r groups = false.
Proof.
  revert score. induction groups as [|[group items] rest IH]; intros score;
    cbn [count_groups]; [discriminate|].
  unfold bind, numeric_codes. cbn [forallb snd].
  pose proof (any_item_consumed_raises r items) as Hitems.
  pose proof (any_item_consumed_reads r items) as Hreads.
  destruct (any_item_consumed items r) as [[b|e'] r']; cbn [fst snd] in *.
  - subst r'. intros Hr. destruct (IH _ Hr) as [-> Hnum].
    split; [reflexivity|]. unfold numeric_codes in Hnum. rewrite Hnum.
    apply andb_false_r.
  - intros [= <-]. destruct (Hitems e' eq_refl) as [-> Hnum].
    rewrite Hnum. split; reflexivity.
Qed.

(** X17.  The scorer never raises a KeyError, an item without a coded
    column being passed over: the only exception it raises is the
    TypeError of comparing text with 3, and only on a row that holds text
    in a coded column of the catalog. *)
Theorem calculate_dds_raises_only_on_text (r : row) groups (e : exn) :
  calculate_dds r groups = Raise e ->
  e = TypeError /\ numeric_codes r groups = false.
Proof. apply count_groups_raises. Qed.

Lemma calculate_dds_raises_only_on_text_witness :
  numeric_codes (<["Rice_coded" := Str "often"]> ∅) food_groups = false.
Proof.
  assert (Hraise : calculate_dds (<["Rice_coded" := Str "often"]> ∅) food_groups =
                   Raise TypeError) by (vm_compute; reflexivity).
  exact (proj2 (calculate_dds_raises_only_on_text _ _ _ Hraise)).
Defined.

(** ** The statements above on the table of two respondents *)

Lemma exported_coded_columns_witness :
  exists table,
    exported "cleaned_data.csv" (files (snd (run_preparation survey_table))) =
      Some table /\
    nrows table = nrows survey_table /\
    columns table !! coded_name "Rice" =
      map code_cell <$> columns survey_table !! "Rice" /\
    columns table !! "Rice" = columns survey_table !! "Rice".
Proof.
  apply (exported_coded_columns survey_table [Num 17.9; Str "n/a"] "Rice").
  - vm_compute. reflexivity.
  - vm_compute. reflexivity.
  - apply listed_true. vm_compute. reflexivity.
Defined.

Lemma exported_bmi_columns_witness :
  exists table,
    exported "cleaned_data.csv" (files (snd (run_preparation survey_table))) =
      Some table /\
    columns table !! "BMI" = Some [Num 17.9; Str "n/a"] /\
    columns table !! "BMI_final" =
      Some (map (fun c => Num (to_numeric_cell c)) [Num 17.9; Str "n/a"]) /\
    columns table !! "BMI_category" =
      Some (map (fun c => Str (bmi_category_of c)) [Num 17.9; Str "n/a"]).
Proof.
  apply (exported_bmi_columns survey_table [Num 17.9; Str "n/a"]).
  - vm_compute. reflexivity.
  - vm_compute. reflexivity.
Defined.

Lemma exported_original_columns_witness :
  exists table,
    exported "cleaned_data.csv" (files (snd (run_preparation survey_table))) =
      Some table /\
    columns table !! "Residence" =
      (if listed "Residence" text_columns
       then map standardize <$> columns survey_table !! "Residence"
       else columns survey_table !! "Residence").
Proof.
  apply (exported_original_columns survey_table [Num 17.9; Str "n/a"] "Residence").
  - vm_compute. reflexivity.
  - vm_compute. reflexivity.
  - vm_compute. reflexivity.
Defined.

Lemma exported_dds_column_witness :
  exists table scores,
    exported "cleaned_data.csv" (files (snd (run_preparation survey_table))) =
      Some table /\
    columns table !! "DDS" = Some scores /\
    length scores = nrows survey_table /\
    forall i, (i < nrows survey_table)%nat ->
      scores !! i = Some (Num (of_int (dds_count (row_at table i) food_groups))) /\
      calculate_dds (row_at table i) food_groups =
        Ok (dds_count (row_at table i) food_groups) /\
      (0 <= dds_count (row_at table i) food_groups <= 10)%Z.
Proof.
  apply (exported_dds_column survey_table [Num 17.9; Str "n/a"]).
  - vm_compute. reflexivity.
  - vm_compute. reflexivity.
Defined.

Lemma summary_residence_counts_witness :
  fst (run_preparation survey_table) = Ok tt /\
  fst (summary_residence (snd (run_preparation survey_table))) = Ok (0, 0)%Z.
Proof.
  apply (summary_residence_counts survey_table [Num 17.9; Str "n/a"]
           [Str " urban"; Str "RURAL"]).
  - vm_compute. reflexivity.
  - vm_compute. reflexivity.
  - vm_compute. reflexivity.
Defined.
